(** * eduAI backend: a shallow embedding of the Canvas scraper, the document
    flattener, the embedding index and the chat service, with the properties
    of the specification proved (or refuted) against it.

    Source files: [backend/Scraper.py] and [backend/main.py].

    Conventions.
    - A Python [str] is a Rocq [string]; one [ascii] stands for one character
      (code points below 256).
    - A value read from or written to JSON is a [json]; a Python [dict] is an
      association list with pairwise distinct keys, in insertion order.
    - A Python expression that may raise is a [result]: [Ok v] or [Raise msg]
      where [msg] is [str(e)] of the exception.
    - The libraries the program calls but does not contain (the sentence
      encoder, dateutil, the zone table of pytz, [repr] of compound values,
      [datetime.fromisoformat]) are the fields of the class [Libs]. *)

From Stdlib Require Import ZArith Ascii String List Lia DecimalString PrimFloat.
From stdpp Require Import base option list gmap strings sorting.

Set Warnings "-register-all".
Open Scope string_scope.

(** ** Results of fallible code *)

Inductive result (A : Type) : Type :=
| Ok (a : A)
| Raise (msg : string).
Arguments Ok {A} a.
Arguments Raise {A} msg.

Definition bind {A B} (r : result A) (k : A -> result B) : result B :=
  match r with
  | Ok a => k a
  | Raise e => Raise e
  end.

Notation "x <- r ;; k" := (bind r (fun x => k))
  (at level 100, r at next level, right associativity).

Fixpoint mapM {A B} (f : A -> result B) (l : list A) : result (list B) :=
  match l with
  | [] => Ok []
  | a :: l' => b <- f a ;; bs <- mapM f l' ;; Ok (b :: bs)
  end.

(** ** Python strings *)

Definition chr (n : nat) : string := String (ascii_of_nat n) "".
Definition nl : string := chr 10.
Definition dquote : string := chr 34.

Fixpoint concat_str (l : list string) : string :=
  match l with
  | [] => ""
  | s :: l' => s ++ concat_str l'
  end.

(** [sep.join(l)] *)
Fixpoint join (sep : string) (l : list string) : string :=
  match l with
  | [] => ""
  | [s] => s
  | s :: l' => s ++ sep ++ join sep l'
  end.

Fixpoint str_drop (n : nat) (s : string) : string :=
  match n, s with
  | O, _ => s
  | S n', String _ s' => str_drop n' s'
  | S _, EmptyString => EmptyString
  end.

(** [s[-n:]] for a positive [n]: the last [n] characters, all of [s] when it
    is shorter. *)
Definition str_suffix (n : nat) (s : string) : string :=
  str_drop (String.length s - n) s.

(** The characters of a string, as Python iterates over it. *)
Fixpoint chars (s : string) : list string :=
  match s with
  | EmptyString => []
  | String c s' => String c "" :: chars s'
  end.

(** [str.isspace] on one character, for code points below 256. *)
Definition isspace (c : ascii) : bool :=
  let n := nat_of_ascii c in
  (((9 <=? n) && (n <=? 13)) || ((28 <=? n) && (n <=? 32))
   || (n =? 133) || (n =? 160))%nat.

Fixpoint lstrip (s : string) : string :=
  match s with
  | String c s' => if isspace c then lstrip s' else s
  | EmptyString => EmptyString
  end.

Fixpoint rstrip (s : string) : string :=
  match s with
  | EmptyString => EmptyString
  | String c s' =>
      match rstrip s' with
      | EmptyString => if isspace c then EmptyString else String c EmptyString
      | r => String c r
      end
  end.

(** [s.strip()] *)
Definition strip (s : string) : string := rstrip (lstrip s).

(** [s.replace(old, new)] for a one-character [old]. *)
Fixpoint replace_char (old : ascii) (new : string) (s : string) : string :=
  match s with
  | EmptyString => EmptyString
  | String c s' =>
      (if Ascii.eqb c old then new else String c "") ++ replace_char old new s'
  end.

(** [str(n)] of an integer *)
Definition str_of_Z (z : Z) : string := NilZero.string_of_int (Z.to_int z).

Fixpoint zeros (n : nat) : string :=
  match n with
  | O => ""
  | S n' => "0" ++ zeros n'
  end.

(** A non-negative number zero-padded to [w] digits ([%02d], [%04d]). *)
Definition zpad (w : nat) (z : Z) : string :=
  let s := str_of_Z z in zeros (w - String.length s) ++ s.

(** ** JSON values and the Python operations on them *)

Inductive json : Type :=
| JNull
| JBool (b : bool)
| JInt (z : Z)
| JFloat (f : float)
| JStr (s : string)
| JList (l : list json)
| JDict (d : list (string * json)).

Definition pydict : Type := list (string * json).

(** [d.get(k)]: the binding of [k], if any *)
Fixpoint dict_lookup (k : string) (d : pydict) : option json :=
  match d with
  | [] => None
  | (k', v) :: d' => if String.eqb k k' then Some v else dict_lookup k d'
  end.

(** [d.get(k, dflt)] *)
Definition dict_get (k : string) (dflt : json) (d : pydict) : json :=
  match dict_lookup k d with
  | Some v => v
  | None => dflt
  end.

(** [type(v).__name__] *)
Definition type_name (v : json) : string :=
  match v with
  | JNull => "NoneType"
  | JBool _ => "bool"
  | JInt _ => "int"
  | JFloat _ => "float"
  | JStr _ => "str"
  | JList _ => "list"
  | JDict _ => "dict"
  end.

(** [v.get(k, dflt)]: only a dict has the method. *)
Definition py_get (v : json) (k : string) (dflt : json) : result json :=
  match v with
  | JDict d => Ok (dict_get k dflt d)
  | _ => Raise ("'" ++ type_name v ++ "' object has no attribute 'get'")
  end.

(** [isinstance(v, dict)] *)
Definition is_dict (v : json) : bool :=
  match v with
  | JDict _ => true
  | _ => false
  end.

(** Truth value of [v] in a condition. *)
Definition truthy (v : json) : bool :=
  match v with
  | JNull => false
  | JBool b => b
  | JInt z => negb (z =? 0)%Z
  | JFloat f => negb (PrimFloat.eqb f 0%float)
  | JStr s => negb (String.eqb s "")
  | JList l => match l with [] => false | _ => true end
  | JDict d => match d with [] => false | _ => true end
  end.

(** [v != s] for a string literal [s] *)
Definition ne_str (v : json) (s : string) : bool :=
  match v with
  | JStr s' => negb (String.eqb s' s)
  | _ => true
  end.

(** [for x in v]: the elements of a list, the characters of a string, the
    keys of a dict. *)
Definition py_iter (v : json) : result (list json) :=
  match v with
  | JList l => Ok l
  | JStr s => Ok (map JStr (chars s))
  | JDict d => Ok (map (fun kv => JStr (fst kv)) d)
  | _ => Raise ("'" ++ type_name v ++ "' object is not iterable")
  end.

(** [len(v)] *)
Definition py_len (v : json) : result nat :=
  match v with
  | JList l => Ok (List.length l)
  | JStr s => Ok (String.length s)
  | JDict d => Ok (List.length d)
  | _ => Raise ("object of type '" ++ type_name v ++ "' has no len()")
  end.

(** ** Dates and times ([datetime], [pytz]) *)

Open Scope Z_scope.

(** A [datetime] without its zone: the fields of the wall clock. *)
Record naive : Type := MkNaive {
  year : Z; month : Z; day : Z;
  hour : Z; minute : Z; second : Z; microsecond : Z
}.

(** What a [tzinfo] answers for one datetime: [utcoffset()] in seconds and
    [tzname()]. *)
Record tzinfo : Type := MkTz { utcoffset : Z; tzname : string }.

(** A [datetime]: naive when [dt_tz] is [None], aware otherwise. *)
Record datetime : Type := MkDatetime { dt_fields : naive; dt_tz : option tzinfo }.

(** [pytz.UTC] *)
Definition UTC : tzinfo := MkTz 0 "UTC".

(** Days from 1970-01-01 to the given date of the proleptic Gregorian
    calendar, and back. *)
Definition days_from_civil (y m d : Z) : Z :=
  let y' := if m <=? 2 then y - 1 else y in
  let era := y' / 400 in
  let yoe := y' - era * 400 in
  let mp := (m + 9) mod 12 in
  let doy := (153 * mp + 2) / 5 + d - 1 in
  let doe := yoe * 365 + yoe / 4 - yoe / 100 + doy in
  era * 146097 + doe - 719468.

Definition civil_from_days (z : Z) : Z * Z * Z :=
  let z' := z + 719468 in
  let era := z' / 146097 in
  let doe := z' - era * 146097 in
  let yoe := (doe - doe / 1460 + doe / 36524 - doe / 146096) / 365 in
  let doy := doe - (365 * yoe + yoe / 4 - yoe / 100) in
  let mp := (5 * doy + 2) / 153 in
  let d := doy - (153 * mp + 2) / 5 + 1 in
  let m := if mp <? 10 then mp + 3 else mp - 9 in
  let y := yoe + era * 400 in
  (if m <=? 2 then y + 1 else y, m, d).

(** Day of the week of a day number: 0 is Sunday. *)
Definition weekday (days : Z) : Z := (days + 4) mod 7.

Definition us_per_second : Z := 1000000.
Definition us_per_day : Z := 86400 * us_per_second.

(** Microseconds from 1970-01-01T00:00:00 to the wall clock [n]. *)
Definition wall_us (n : naive) : Z :=
  (((days_from_civil (year n) (month n) (day n) * 24 + hour n) * 60
    + minute n) * 60 + second n) * us_per_second + microsecond n.

(** [datetime.min] and [datetime.max] *)
Definition datetime_min : Z := wall_us (MkNaive 1 1 1 0 0 0 0).
Definition datetime_max : Z := wall_us (MkNaive 9999 12 31 23 59 59 999999).

(** The datetime at a number of microseconds; arithmetic that leaves the
    range of [datetime] raises OverflowError. *)
Definition of_wall_us (t : Z) : result naive :=
  if (datetime_min <=? t) && (t <=? datetime_max) then
    let days := t / us_per_day in
    let rest := t mod us_per_day in
    let '(y, m, d) := civil_from_days days in
    let secs := rest / us_per_second in
    Ok (MkNaive y m d (secs / 3600) (secs / 60 mod 60) (secs mod 60)
          (rest mod us_per_second))
  else Raise "date value out of range".

(** A zone of pytz ([DstTzInfo]): the sorted UTC instants of its transitions
    and, in parallel, what holds from each of them on. *)
Record DstTzInfo : Type := MkZone {
  zone : string;
  utc_transition_times : list Z;
  transition_info : list tzinfo
}.

(** [bisect.bisect_right] on a sorted list: how many entries are at most
    [x]. *)
Fixpoint bisect_right (l : list Z) (x : Z) : nat :=
  match l with
  | [] => O
  | t :: l' => if t <=? x then S (bisect_right l' x) else O
  end.

(** [DstTzInfo.fromutc]: the entry of the last transition at or before the
    instant (the first entry before all of them), its offset added. *)
Definition fromutc (tz : DstTzInfo) (utc : Z) : result (naive * tzinfo) :=
  let idx := (bisect_right (utc_transition_times tz) utc - 1)%nat in
  match nth_error (transition_info tz) idx with
  | None => Raise "list index out of range"
  | Some inf =>
      loc <- of_wall_us (utc + utcoffset inf * us_per_second) ;;
      Ok (loc, inf)
  end.

(** [dt.astimezone(tz)] for an aware [dt] with fields [n] and zone answer
    [from]: to UTC, then [tz.fromutc]. *)
Definition astimezone (tz : DstTzInfo) (n : naive) (from : tzinfo)
  : result (naive * tzinfo) :=
  utc <- of_wall_us (wall_us n - utcoffset from * us_per_second) ;;
  fromutc tz (wall_us utc).

(** [%I] and [%p] of strftime *)
Definition hour12 (h : Z) : Z := if h mod 12 =? 0 then 12 else h mod 12.
Definition am_pm (h : Z) : string := if h <? 12 then "AM" else "PM".

Definition day_name (w : Z) : string :=
  nth (Z.to_nat w)
    ["Sunday"; "Monday"; "Tuesday"; "Wednesday"; "Thursday"; "Friday";
     "Saturday"] "".

Definition month_name (m : Z) : string :=
  nth (Z.to_nat (m - 1))
    ["January"; "February"; "March"; "April"; "May"; "June"; "July";
     "August"; "September"; "October"; "November"; "December"] "".

(** [strftime("%Y-%m-%d %I:%M %p %Z")] *)
Definition strftime_due (l : naive * tzinfo) : string :=
  let '(n, z) := l in
  zpad 4 (year n) ++ "-" ++ zpad 2 (month n) ++ "-" ++ zpad 2 (day n) ++ " "
  ++ zpad 2 (hour12 (hour n)) ++ ":" ++ zpad 2 (minute n) ++ " "
  ++ am_pm (hour n) ++ " " ++ tzname z.

(** [strftime("%A, %B %d, %Y at %I:%M %p %Z")] *)
Definition strftime_now (l : naive * tzinfo) : string :=
  let '(n, z) := l in
  day_name (weekday (days_from_civil (year n) (month n) (day n))) ++ ", "
  ++ month_name (month n) ++ " " ++ zpad 2 (day n) ++ ", "
  ++ zpad 4 (year n) ++ " at "
  ++ zpad 2 (hour12 (hour n)) ++ ":" ++ zpad 2 (minute n) ++ " "
  ++ am_pm (hour n) ++ " " ++ tzname z.

(** The instant of an aware datetime, in microseconds from the epoch. *)
Definition instant (n : naive) (z : tzinfo) : Z :=
  wall_us n - utcoffset z * us_per_second.

(** The zone America/New_York under the rules in force since 2007: daylight
    time from the second Sunday of March, 2:00 EST, to the first Sunday of
    November, 2:00 EDT. The table of pytz ends with 2037, as this one does;
    its entries before 2007 are not reproduced (the first entry here is the
    standard time that precedes March 2007). *)
Definition EST : tzinfo := MkTz (-18000) "EST".
Definition EDT : tzinfo := MkTz (-14400) "EDT".

(** The first Sunday on or after day [d] of month [m] of year [y], as a day
    number. *)
Definition sunday_from (y m d : Z) : Z :=
  let n := days_from_civil y m d in n + (7 - weekday n) mod 7.

Definition us_transitions (y : Z) : list (Z * tzinfo) :=
  [ ((sunday_from y 3 8 * 86400 + 7 * 3600) * us_per_second, EDT);
    ((sunday_from y 11 1 * 86400 + 6 * 3600) * us_per_second, EST) ].

Definition years_2007_2037 : list Z := map (fun i => 2007 + Z.of_nat i) (seq 0 31).

Definition America_New_York : DstTzInfo :=
  let tr := flat_map us_transitions years_2007_2037 in
  MkZone "America/New_York"
    (datetime_min :: map fst tr)
    (EST :: map snd tr).

(** A reader of the ISO 8601 forms [YYYY-MM-DDTHH:MM:SS], with [Z] or
    [+HH:MM] / [-HH:MM] after it or nothing: the timestamps of the Canvas API
    and their zone-less variant. Both parsers of the program read these
    forms this way. *)
Definition digit (c : ascii) : option Z :=
  let n := nat_of_ascii c in
  if ((48 <=? n) && (n <=? 57))%nat then Some (Z.of_nat n - 48) else None.

Fixpoint digits (k : nat) (s : string) (acc : Z) : option (Z * string) :=
  match k with
  | O => Some (acc, s)
  | S k' =>
      match s with
      | String c s' =>
          match digit c with
          | Some d => digits k' s' (10 * acc + d)
          | None => None
          end
      | EmptyString => None
      end
  end.

Definition expect (c : ascii) (s : string) : option string :=
  match s with
  | String c' s' => if Ascii.eqb c c' then Some s' else None
  | EmptyString => None
  end.

Definition days_in_month (y m : Z) : Z :=
  days_from_civil (if m =? 12 then y + 1 else y) (if m =? 12 then 1 else m + 1) 1
  - days_from_civil y m 1.

Definition valid_fields (n : naive) : bool :=
  (1 <=? year n) && (year n <=? 9999) && (1 <=? month n) && (month n <=? 12)
  && (1 <=? day n) && (day n <=? days_in_month (year n) (month n))
  && (hour n <=? 23) && (minute n <=? 59) && (second n <=? 59).

Definition iso_offset (s : string) (allow_z : bool) : option (option tzinfo) :=
  match s with
  | EmptyString => Some None
  | String c s' =>
      if Ascii.eqb c "Z" then
        if allow_z then match s' with EmptyString => Some (Some UTC) | _ => None end
        else None
      else
        let sign := if Ascii.eqb c "+" then Some 1
                    else if Ascii.eqb c "-" then Some (-1) else None in
        sg ← sign; '(hh, r1) ← digits 2 s' 0; r2 ← expect ":" r1;
        '(mm, r3) ← digits 2 r2 0;
        match r3 with
        | EmptyString =>
            if (hh <=? 23) && (mm <=? 59) then
              let off := sg * (hh * 3600 + mm * 60) in
              Some (Some (MkTz off (if off =? 0 then "UTC" else "")))
            else None
        | _ => None
        end
  end.

Definition iso_datetime (allow_z : bool) (s : string) : option datetime :=
  '(y, r) ← digits 4 s 0; r ← expect "-" r;
  '(m, r) ← digits 2 r 0; r ← expect "-" r;
  '(d, r) ← digits 2 r 0; r ← expect "T" r;
  '(hh, r) ← digits 2 r 0; r ← expect ":" r;
  '(mi, r) ← digits 2 r 0; r ← expect ":" r;
  '(ss, r) ← digits 2 r 0;
  tz ← iso_offset r allow_z;
  let n := MkNaive y m d hh mi ss 0 in
  if valid_fields n then Some (MkDatetime n tz) else None.

(** ** The libraries behind the program *)

Class Libs : Type := MkLibs {
  (** the vectors of the sentence encoder *)
  vec : Type;
  (** [SentenceTransformer.encode] on one text *)
  encode : string -> vec;
  (** the squared Euclidean distance of the flat index, by its rank in the
      order of the distances *)
  dist : vec -> vec -> N;
  (** [str(v)] of a float, a list or a dict *)
  py_repr : json -> string;
  (** [dateutil.parser.parse]; [None] when it raises *)
  dateutil_parse : string -> option datetime;
  (** [pytz.timezone('America/New_York')] *)
  USER_TIMEZONE : DstTzInfo;
  (** [datetime.fromisoformat]; [None] when it raises *)
  fromisoformat : string -> option datetime
}.

(** ** The document flattener ([load_and_process_data], main.py) *)

Section Flattener.
Context {L : Libs}.

(** [str(v)], which is how an f-string renders [v] *)
Definition py_str (v : json) : string :=
  match v with
  | JStr s => s
  | JNull => "None"
  | JBool true => "True"
  | JBool false => "False"
  | JInt z => str_of_Z z
  | _ => py_repr v
  end.

(** The body of the [try] of the due-date conversion: parse, take a naive
    date as UTC, convert to the zone of the user, format. The message of a
    failure is dropped by the [except] clause. *)
Definition convert_due (due_str : json) : result string :=
  match due_str with
  | JStr s =>
      match dateutil_parse s with
      | None => Raise "Unknown string format"
      | Some due_utc =>
          let from := match dt_tz due_utc with
                      | None => UTC
                      | Some z => z
                      end in
          due_local <- astimezone USER_TIMEZONE (dt_fields due_utc) from ;;
          Ok (strftime_due due_local)
      end
  | _ => Raise "Parser must be a string or character stream"
  end.

(** The value of [due] for a stored [due_str]. *)
Definition due_of (due_str : json) : json :=
  if truthy due_str && ne_str due_str "No due date" then
    match convert_due due_str with
    | Ok due => JStr due
    | Raise _ => due_str
    end
  else due_str.

(** The four values the loop body binds for an assignment or a quiz. *)
Record item : Type := MkItem {
  it_name : json; it_due : json; it_desc : json; it_scores : json
}.

(** The assignment and the quiz branch differ in the key of the title and
    in its default only. *)
Definition item_of (title_key title_dflt : string) (a : json) : item :=
  match a with
  | JDict d =>
      let a_name := dict_get title_key (JStr title_dflt) d in
      let due_str := dict_get "due_at" (JStr "No due date") d in
      let due := due_of due_str in
      let a_desc := dict_get "description" (JStr "No description") d in
      let submission := dict_get "submission" (JDict []) d in
      let sub_scores :=
        match submission with
        | JDict sd => dict_get "scores" (JStr "No submission") sd
        | _ => JStr "No submission"
        end in
      MkItem a_name due a_desc sub_scores
  | _ => MkItem (JStr (py_str a)) (JStr "No due date") (JStr "") (JStr "")
  end.

Definition assignment_item : json -> item := item_of "name" "Unnamed Assignment".
Definition quiz_item : json -> item := item_of "title" "Unnamed Quiz".

Definition assign_doc (course_name : json) (it : item) : string :=
  "**Assignment in " ++ py_str course_name ++ ":**" ++ nl
  ++ "- **Name:** " ++ py_str (it_name it) ++ nl
  ++ "- **Due Date:** " ++ py_str (it_due it) ++ nl
  ++ "- **Description:** " ++ py_str (it_desc it) ++ nl
  ++ "- **Submission Scores:** " ++ py_str (it_scores it) ++ nl.

Definition quiz_doc (course_name : json) (it : item) : string :=
  "**Quiz in " ++ py_str course_name ++ ":**" ++ nl
  ++ "- **Title:** " ++ py_str (it_name it) ++ nl
  ++ "- **Due Date:** " ++ py_str (it_due it) ++ nl
  ++ "- **Description:** " ++ py_str (it_desc it) ++ nl
  ++ "- **Submission Scores:** " ++ py_str (it_scores it) ++ nl.

Definition item_meta (type : string) (course_name : json) (it : item) : json :=
  JDict [("type", JStr type); ("course", course_name); ("title", it_name it)].

(** The two lists the loops append to. *)
Definition acc : Type := (list string * list json)%type.

Definition append (a : acc) (doc : string) (meta : json) : acc :=
  ((fst a ++ [doc])%list, (snd a ++ [meta])%list).

Definition add_assignment (course_name : json) (a : acc) (assignment : json) : acc :=
  let it := assignment_item assignment in
  append a (assign_doc course_name it) (item_meta "assignment" course_name it).

Definition add_quiz (course_name : json) (a : acc) (quiz : json) : acc :=
  let it := quiz_item quiz in
  append a (quiz_doc course_name it) (item_meta "quiz" course_name it).

Definition course_doc (course_name course_code description : json) : string :=
  let doc := "**Course:** " ++ py_str course_name ++ nl
             ++ "**Code:** " ++ py_str course_code ++ nl in
  if truthy description
  then doc ++ "**Description:** " ++ py_str description ++ nl
  else doc.

(** The body of the loop over the courses. *)
Definition process_course (a : acc) (course : json) : result acc :=
  course_name <- py_get course "name" (JStr "Unknown Course") ;;
  course_code <- py_get course "course_code" (JStr "No code") ;;
  description <- py_get course "description" JNull ;;
  let a1 := append a (course_doc course_name course_code description)
              (JDict [("type", JStr "course"); ("course", course_name)]) in
  av <- py_get course "assignments" (JList []) ;;
  assignments <- py_iter av ;;
  let a2 := fold_left (add_assignment course_name) assignments a1 in
  qv <- py_get course "quizzes" (JList []) ;;
  quizzes <- py_iter qv ;;
  Ok (fold_left (add_quiz course_name) quizzes a2).

Fixpoint process_courses (courses : list json) (a : acc) : result acc :=
  match courses with
  | [] => Ok a
  | course :: rest => a' <- process_course a course ;; process_courses rest a'
  end.

(** [load_and_process_data], from the parsed content of the dataset file:
    the documents, the metadata and the dataset itself. *)
Definition load_and_process_data (canvas_data : json)
  : result (list string * list json * json) :=
  cv <- py_get canvas_data "courses" (JList []) ;;
  courses <- py_iter cv ;;
  a <- process_courses courses ([], []) ;;
  Ok (fst a, snd a, canvas_data).

End Flattener.

(** ** The embedding index ([build_faiss_index] and [IndexFlatL2]) *)

Section Index.
Context {L : Libs}.

(** A flat index: the stored vectors, in the order they were added. *)
Record IndexFlatL2 : Type := MkIndex { xb : list vec }.

Definition ntotal (idx : IndexFlatL2) : nat := List.length (xb idx).

(** [embeddings.shape[1]] does not exist for an empty batch. *)
Definition build_faiss_index (documents : list string) : result IndexFlatL2 :=
  match documents with
  | [] => Raise "tuple index out of range"
  | _ => Ok (MkIndex (map encode documents))
  end.

(** A scored position: its distance to the query and its label. *)
Definition by_dist : relation (N * Z) := fun a b => (fst a <= fst b)%N.

#[export] Instance by_dist_dec : RelDecision by_dist.
Proof. intros a b. unfold by_dist. apply N.le_dec. Defined.

Definition scored (idx : IndexFlatL2) (q : vec) : list (N * Z) :=
  imap (fun i x => (dist q x, Z.of_nat i)) (xb idx).

(** The exhaustive search: all positions ordered by distance, the first [k]
    of them. *)
Definition search_ranked (idx : IndexFlatL2) (q : vec) (k : nat) : list (N * Z) :=
  take k (merge_sort by_dist (scored idx q)).

(** [index.search(q, k)[1][0]]: the labels, filled up with -1 when the index
    holds fewer than [k] vectors. *)
Definition search (idx : IndexFlatL2) (q : vec) (k : nat) : list Z :=
  (map snd (search_ranked idx q k) ++ replicate (k - ntotal idx) (-1))%list.

End Index.

(** [l[i]] with the negative indices of Python *)
Definition py_index {A} (l : list A) (i : Z) : result A :=
  let n := Z.of_nat (List.length l) in
  let j := if i <? 0 then i + n else i in
  match (if 0 <=? j then nth_error l (Z.to_nat j) else None) with
  | Some x => Ok x
  | None => Raise "list index out of range"
  end.

(** ** The conversation service (the routes of main.py) *)

Definition prompt_instructions : string :=
  concat_str [
    "You are an AI Study Buddy with access to structured Canvas course data. ";
    "Your role is to help the user plan their study, answer questions about upcoming assignments and quizzes, ";
    "and provide personalized study plans. Use the provided context to answer questions accurately. ";
    "When a study plan is requested (e.g., 'Plan my week' or 'Give me a five-day study plan'), ";
    "output a neatly formatted plan with bold headings and a table or bullet list format. ";
    "If asked about upcoming assignments or quizzes, automatically select the most imminent items based on due dates. ";
    "Take special note of all due dates and ALWAYS use the Eastern Time (ET) timezone when referring to them. ";
    "Pay close attention to the current date and time. If an assignment is due today at 11:59 PM and it is still earlier ";
    "in the day, make sure to indicate that it is due TODAY at 11:59 PM, not tomorrow. ";
    "Be precise with time information and understand time sensitivity. ";
    "Assume that the current week is the relevant week if not specified, and never ask the user clarifying questions. ";
    "Respond in a friendly, helpful, and professional manner, ensuring that your response is presentable and well-structured. ";
    "If some data is missing, fill in plausible details to ensure a complete and helpful answer. ";
    "Also Do not use terms like "; dquote; "based on your given data"; dquote;
    " etc. You should sound natural."
  ].

(** The globals of the server process. *)
Record state {L : Libs} : Type := MkState {
  documents : list string;
  metadata : list json;
  original_data : json;
  index : IndexFlatL2;
  (** whether [setup_gemini_api] found a key and returned a model *)
  gemini_model : bool;
  conversation_histories : gmap string string
}.
Arguments MkState {L} _ _ _ _ _ _.

(** What a request meets outside the process: the clock (UTC, microseconds
    from the epoch) and the hosted model, which answers a prompt with the
    text of its response or raises. *)
Record world : Type := MkWorld {
  clock : Z;
  generate_content : string -> result string
}.

(** The JSON body of a POST: [message] and [session_id], each possibly
    missing. *)
Record post_body : Type := MkBody {
  message : option string;
  session_id : option string
}.

(** A response: the HTTP status and the JSON object of [jsonify]. *)
Record response : Type := MkResponse { status : nat; payload : pydict }.

Definition error_response (code : nat) (e : string) : response :=
  MkResponse code [("error", JStr e)].

Definition history_limit : nat := Z.to_nat 10000.

Section Service.
Context {L : Libs}.

Definition set_histories (st : state) (h : gmap string string) : state :=
  MkState (documents st) (metadata st) (original_data st) (index st)
    (gemini_model st) h.

(** [conversation_histories[session_id]], once the key is known to exist *)
Definition history (st : state) (sid : string) : string :=
  default "" (conversation_histories st !! sid).

(** The startup lines at the end of main.py. *)
Definition startup (canvas_data : json) (api_key : bool) : result state :=
  r <- load_and_process_data canvas_data ;;
  idx <- build_faiss_index (fst (fst r)) ;;
  Ok (MkState (fst (fst r)) (snd (fst r)) (snd r) idx api_key ∅).

(** The retrieval of a chat turn: the top 10 documents for the message. *)
Definition retrieve (st : state) (msg : string) : result (list string) :=
  let query_embedding := encode msg in
  let k := Nat.min 10 (List.length (documents st)) in
  let indices := search (index st) query_embedding k in
  mapM (py_index (documents st)) indices.

Definition full_prompt (date_time_string retrieved_context msg : string) : string :=
  prompt_instructions ++ nl ++ nl
  ++ "Current Date and Time: " ++ date_time_string ++ nl ++ nl
  ++ "Canvas Data Context:" ++ nl ++ retrieved_context ++ nl ++ nl
  ++ "User: " ++ msg ++ nl ++ "Assistant:".

(** The part of the [try] block before the history is touched. *)
Definition build_prompt (w : world) (st : state) (msg : string) : result string :=
  retrieved_docs <- retrieve st msg ;;
  let retrieved_context := join nl retrieved_docs in
  current_date <- fromutc USER_TIMEZONE (clock w) ;;
  Ok (full_prompt (strftime_now current_date) retrieved_context msg).

(** [gemini_model.generate_content(h).text]; the model is [None] without an
    API key. *)
Definition call_model (w : world) (st : state) (h : string) : result string :=
  if gemini_model st then generate_content w h
  else Raise "'NoneType' object has no attribute 'generate_content'".

(** The limit on the stored history. *)
Definition limit_history (h : string) : string :=
  if (history_limit <? String.length h)%nat then str_suffix history_limit h
  else h.

(** POST /api/chat *)
Definition chat (w : world) (body : post_body) (st : state) : response * state :=
  let msg := default "" (message body) in
  let sid := default "default" (session_id body) in
  if String.eqb msg "" then (error_response 400 "No message provided", st)
  else
    let st0 :=
      match conversation_histories st !! sid with
      | Some _ => st
      | None => set_histories st (<[sid := ""]> (conversation_histories st))
      end in
    match build_prompt w st0 msg with
    | Raise e => (error_response 500 e, st0)
    | Ok prompt =>
        let h1 := history st0 sid ++ nl ++ prompt in
        let st1 := set_histories st0 (<[sid := h1]> (conversation_histories st0)) in
        match call_model w st1 h1 with
        | Raise e => (error_response 500 e, st1)
        | Ok text =>
            let ai_response := strip text in
            let h2 := h1 ++ " " ++ ai_response in
            let st2 := set_histories st1
                         (<[sid := limit_history h2]> (conversation_histories st1)) in
            (MkResponse 200 [("response", JStr ai_response)], st2)
        end
    end.

(** POST /api/reset-chat *)
Definition reset_chat (body : post_body) (st : state) : response * state :=
  let sid := default "default" (session_id body) in
  let st' :=
    match conversation_histories st !! sid with
    | Some _ => set_histories st (<[sid := ""]> (conversation_histories st))
    | None => st
    end in
  (MkResponse 200 [("status", JStr "Conversation reset successfully")], st').

(** One entry of the list of courses of the summary. *)
Definition course_summary (course : json) : result json :=
  name <- py_get course "name" (JStr "Unknown Course") ;;
  av <- py_get course "assignments" (JList []) ;;
  assignments_count <- py_len av ;;
  qv <- py_get course "quizzes" (JList []) ;;
  quizzes_count <- py_len qv ;;
  Ok (JDict [("name", name);
             ("assignments_count", JInt (Z.of_nat assignments_count));
             ("quizzes_count", JInt (Z.of_nat quizzes_count))]).

(** [sum(len(course.get(key, [])) for course in courses)] *)
Fixpoint total_len (key : string) (courses : list json) : result nat :=
  match courses with
  | [] => Ok O
  | course :: rest =>
      v <- py_get course key (JList []) ;;
      n <- py_len v ;;
      t <- total_len key rest ;;
      Ok (n + t)%nat
  end.

Definition summary (data : json) : result pydict :=
  cv <- py_get data "courses" (JList []) ;;
  user <- py_get data "user" (JDict []) ;;
  user_name <- py_get user "name" (JStr "Student") ;;
  user_id <- py_get user "id" (JStr "Unknown") ;;
  courses <- py_iter cv ;;
  per_course <- mapM course_summary courses ;;
  total_assignments <- total_len "assignments" courses ;;
  total_quizzes <- total_len "quizzes" courses ;;
  Ok [("user", JDict [("name", user_name); ("id", user_id)]);
      ("courses", JList per_course);
      ("total_assignments", JInt (Z.of_nat total_assignments));
      ("total_quizzes", JInt (Z.of_nat total_quizzes))].

(** GET /api/data/summary *)
Definition get_data_summary (st : state) : response :=
  match summary (original_data st) with
  | Ok s => MkResponse 200 s
  | Raise e => error_response 500 e
  end.

(** GET /api/health; nothing catches a failure here. *)
Definition health_check (now : Z) (st : state) : result response :=
  current_time_local <- fromutc USER_TIMEZONE now ;;
  Ok (MkResponse 200
        [("status", JStr "ok");
         ("documents_count", JInt (Z.of_nat (List.length (documents st))));
         ("index_size", JInt (Z.of_nat (ntotal (index st))));
         ("current_datetime", JStr (strftime_due current_time_local));
         ("timezone", JStr (zone USER_TIMEZONE))]).

(** The requests of the HTTP interface and the states the process goes
    through while it serves them. *)
Inductive request : Type :=
| PostChat (w : world) (body : post_body)
| PostResetChat (body : post_body)
| GetDataSummary
| GetHealth (now : Z).

Definition handle (r : request) (st : state) : state :=
  match r with
  | PostChat w body => snd (chat w body st)
  | PostResetChat body => snd (reset_chat body st)
  | GetDataSummary => st
  | GetHealth _ => st
  end.

Definition run (rs : list request) (st : state) : state :=
  fold_left (fun s r => handle r s) rs st.

End Service.

(** ** The course data fetcher (Scraper.py) *)

(** The objects of the Canvas API, with the attributes the script reads. An
    attribute read with [getattr(o, a, None)] or tested with [hasattr] may
    be missing ([option]); a method that calls the API may raise. *)
Record User : Type := MkUser {
  u_id : Z; u_name : json;
  u_sortable_name : option json; u_login_id : option json
}.

Record Submission : Type := MkSubmission {
  s_submitted_at : json; s_score : json; s_grade : json;
  s_workflow_state : json; s_submission_comments : option json
}.

Record Assignment : Type := MkAssignment {
  a_id : json; a_name : json; a_due_at : json; a_description : json;
  a_points_possible : json;
  (** [assignment.get_submission(current_user.id)] *)
  get_submission : result Submission
}.

Record QuizSubmission : Type := MkQuizSubmission {
  qs_score : option json; qs_graded_at : option json
}.

Record Quiz : Type := MkQuiz {
  q_id : json; q_title : json; q_due_at : json; q_description : json;
  q_points_possible : option json;
  (** [course.get_quiz_submissions(quiz_id=quiz.id, user_id=current_user.id)] *)
  get_quiz_submissions : result (list QuizSubmission)
}.

Record Enrollment : Type := MkEnrollment {
  e_user_id : Z; e_role : json; e_grades : option json
}.

Record Discussion : Type := MkDiscussion {
  d_id : json; d_title : json; d_message : json; d_posted_at : json;
  (** the [id] entry of [discussion.author], when the attribute exists *)
  d_author_id : option (option Z)
}.

Record ModuleItem : Type := MkModuleItem {
  mi_id : json; mi_title : json; mi_type : json; mi_content_id : json;
  mi_published : json
}.

Record Module : Type := MkModule {
  m_id : json; m_name : json;
  get_module_items : result (list ModuleItem)
}.

Record Page : Type := MkPage { p_url : json; p_title : json; p_body : json }.

Record Course : Type := MkCourse {
  c_id : json;
  c_name : option json;
  c_course_code : option json;
  c_description : option json;
  c_start_at : option json;
  c_end_at : option json;
  get_enrollments : result (list Enrollment);
  get_assignments : result (list Assignment);
  get_quizzes : result (list Quiz);
  get_discussion_topics : result (list Discussion);
  get_modules : result (list Module);
  get_pages : result (list Page);
  (** the JSON of [GET courses/<id>/gradebook_history/feed] *)
  get_gradebook_history : result json
}.

(** [getattr(o, a, None)] *)
Definition getattr_none (v : option json) : json := default JNull v.

(** [datetime(2025, 1, 1, tzinfo=timezone.utc)] as an instant *)
Definition cutoff_date : Z := instant (MkNaive 2025 1 1 0 0 0 0) UTC.

Section Scraper.
Context {L : Libs}.
Variable current_user : User.

(** The test at the head of the loop over the courses: [Ok true] when the
    course is skipped. The comparison of a naive start with the aware
    cutoff raises, outside the [try]. *)
Definition skip_course (course : Course) : result bool :=
  match c_start_at course with
  | None => Ok false
  | Some start_at =>
      if truthy start_at then
        let course_start :=
          match start_at with
          | JStr s => fromisoformat (replace_char "Z" "+00:00" s)
          | _ => None
          end in
        match course_start with
        | None => Ok false
        | Some dt =>
            match dt_tz dt with
            | Some z => Ok (instant (dt_fields dt) z <? cutoff_date)
            | None => Raise "can't compare offset-naive and offset-aware datetimes"
            end
        end
      else Ok false
  end.

(** A section of a course: the data, or the message of the failure in its
    place. *)
Definition section (label : string) (r : result json) : json :=
  match r with
  | Ok v => v
  | Raise e => JStr ("Error retrieving " ++ label ++ ": " ++ e)
  end.

Definition enrollment_data (course : Course) : json :=
  section "enrollment"
    (enrollments <- get_enrollments course ;;
     match List.find (fun e => e_user_id e =? u_id current_user) enrollments with
     | Some my_enrollment =>
         Ok (JDict [("user_id", JInt (e_user_id my_enrollment));
                    ("role", e_role my_enrollment);
                    ("grades", default (JDict []) (e_grades my_enrollment))])
     | None => Ok (JStr "No enrollment found for current user")
     end).

Definition submission_data (a : Assignment) : json :=
  section "submission"
    (submission <- get_submission a ;;
     Ok (JDict [("submitted_at", s_submitted_at submission);
                ("score", s_score submission);
                ("grade", s_grade submission);
                ("workflow_state", s_workflow_state submission);
                ("submission_comments",
                 getattr_none (s_submission_comments submission))])).

Definition assignment_data (a : Assignment) : json :=
  JDict [("id", a_id a); ("name", a_name a); ("due_at", a_due_at a);
         ("description", a_description a);
         ("points_possible", a_points_possible a);
         ("submission", submission_data a)].

Definition assignments_data (course : Course) : json :=
  section "assignments"
    (assignments <- get_assignments course ;;
     Ok (JList (map assignment_data assignments))).

Definition quiz_submission_data (q : Quiz) : json :=
  section "quiz submission"
    (submissions <- get_quiz_submissions q ;;
     match submissions with
     | submission :: _ =>
         Ok (JDict [("score", getattr_none (qs_score submission));
                    ("graded_at", getattr_none (qs_graded_at submission))])
     | [] => Ok (JStr "No submission")
     end).

Definition quiz_data (q : Quiz) : json :=
  JDict [("id", q_id q); ("title", q_title q); ("due_at", q_due_at q);
         ("description", q_description q);
         ("points_possible", getattr_none (q_points_possible q));
         ("submission", quiz_submission_data q)].

Definition quizzes_data (course : Course) : json :=
  section "quizzes"
    (quizzes <- get_quizzes course ;;
     Ok (JList (map quiz_data quizzes))).

Definition authored (d : Discussion) : bool :=
  match d_author_id d with
  | Some (Some a) => a =? u_id current_user
  | _ => false
  end.

Definition discussion_data (d : Discussion) : json :=
  JDict [("id", d_id d); ("title", d_title d); ("message", d_message d);
         ("posted_at", d_posted_at d)].

Definition discussions_data (course : Course) : json :=
  section "discussions"
    (discussions <- get_discussion_topics course ;;
     Ok (JList (map discussion_data (List.filter authored discussions)))).

Definition module_item_data (i : ModuleItem) : json :=
  JDict [("id", mi_id i); ("title", mi_title i); ("type", mi_type i);
         ("content_id", mi_content_id i); ("published", mi_published i)].

Definition module_data (m : Module) : json :=
  JDict [("id", m_id m); ("name", m_name m);
         ("items",
          section "module items"
            (module_items <- get_module_items m ;;
             Ok (JList (map module_item_data module_items))))].

Definition modules_data (course : Course) : json :=
  section "modules"
    (modules <- get_modules course ;;
     Ok (JList (map module_data modules))).

Definition page_data (p : Page) : json :=
  JDict [("url", p_url p); ("title", p_title p); ("body", p_body p)].

Definition pages_data (course : Course) : json :=
  section "pages"
    (pages <- get_pages course ;;
     Ok (JList (map page_data pages))).

(** The body of the loop for a course that is not skipped. *)
Definition course_data (course : Course) : json :=
  let course_name := default (JStr "Unknown Course") (c_name course) in
  JDict [("id", c_id course);
         ("name", course_name);
         ("course_code", getattr_none (c_course_code course));
         ("description", getattr_none (c_description course));
         ("start_at", getattr_none (c_start_at course));
         ("end_at", getattr_none (c_end_at course));
         ("enrollment", enrollment_data course);
         ("assignments", assignments_data course);
         ("quizzes", quizzes_data course);
         ("discussions", discussions_data course);
         ("modules", modules_data course);
         ("pages", pages_data course);
         ("gradebook_history",
          section "gradebook history" (get_gradebook_history course))].

(** The loop over the courses, appending to [my_data['courses']]. *)
Fixpoint collect (courses : list Course) (out : list json) : result (list json) :=
  match courses with
  | [] => Ok out
  | course :: rest =>
      skip <- skip_course course ;;
      if skip then collect rest out
      else collect rest (out ++ [course_data course])%list
  end.

(** The whole script: the dataset it dumps to [my_canvas_data.json], or the
    exception that ends it before the file is written. *)
Definition scrape (courses : list Course) : result json :=
  let user := JDict [("id", JInt (u_id current_user));
                     ("name", u_name current_user);
                     ("sortable_name", getattr_none (u_sortable_name current_user));
                     ("login_id", getattr_none (u_login_id current_user))] in
  cs <- collect courses [] ;;
  Ok (JDict [("user", user); ("courses", JList cs)]).

End Scraper.

(** ** Stand-ins for the libraries, to run the model on examples *)

Definition lower_char (c : ascii) : ascii :=
  let n := nat_of_ascii c in
  if ((65 <=? n) && (n <=? 90))%nat then ascii_of_nat (n + 32) else c.

Fixpoint casefold (s : string) : string :=
  match s with
  | EmptyString => EmptyString
  | String c s' => String (lower_char c) (casefold s')
  end.

(** Two vectors are at distance 0 when they are equal and at one positive
    distance otherwise. *)
Definition discrete (a b : string) : N := if String.eqb a b then 0%N else 1%N.

(** An encoder that tells all texts apart; the two parsers read the
    timestamps of Canvas; no example renders a float, a list or a dict. *)
Definition canvas_libs : Libs :=
  MkLibs string (fun s => s) discrete (fun _ => "")
    (iso_datetime true) America_New_York (iso_datetime false).

(** An encoder that, like an uncased language model, does not see the case
    of letters. *)
Definition uncased_libs : Libs :=
  MkLibs string casefold discrete (fun _ => "")
    (iso_datetime true) America_New_York (iso_datetime false).

(** ** The flattener as a function of the dataset

    What [load_and_process_data] appends for one course, written as a list:
    the overview of the course, then one document per assignment, then one
    per quiz. *)

Section FlattenerSpec.
Context {L : Libs}.

Definition course_overview (d : pydict) : string :=
  course_doc (dict_get "name" (JStr "Unknown Course") d)
    (dict_get "course_code" (JStr "No code") d)
    (dict_get "description" JNull d).

Definition course_documents (d : pydict) (assignments quizzes : list json)
  : list string :=
  let course_name := dict_get "name" (JStr "Unknown Course") d in
  (course_overview d
   :: map (fun a => assign_doc course_name (assignment_item a)) assignments
   ++ map (fun q => quiz_doc course_name (quiz_item q)) quizzes)%list.

Definition course_metadata (d : pydict) (assignments quizzes : list json)
  : list json :=
  let course_name := dict_get "name" (JStr "Unknown Course") d in
  (JDict [("type", JStr "course"); ("course", course_name)]
   :: map (fun a => item_meta "assignment" course_name (assignment_item a)) assignments
   ++ map (fun q => item_meta "quiz" course_name (quiz_item q)) quizzes)%list.

(** A course record whose assignments and quizzes are lists (the default
    when the key is missing). *)
Inductive listed_course : json -> pydict -> list json -> list json -> Prop :=
| listed_intro d assignments quizzes :
    dict_get "assignments" (JList []) d = JList assignments ->
    dict_get "quizzes" (JList []) d = JList quizzes ->
    listed_course (JDict d) d assignments quizzes.

(** The documents and the metadata of a list of such courses. *)
Inductive flattened : list json -> list string -> list json -> Prop :=
| flattened_nil : flattened [] [] []
| flattened_cons c d assignments quizzes cs docs metas :
    listed_course c d assignments quizzes ->
    flattened cs docs metas ->
    flattened (c :: cs)
      (course_documents d assignments quizzes ++ docs)%list
      (course_metadata d assignments quizzes ++ metas)%list.

End FlattenerSpec.


(** ** States of the service *)

Section ServiceSpec.
Context {L : Libs}.

(** The index holds the encodings of the documents, in their order. *)
Definition aligned (st : state) : Prop :=
  xb (index st) = map encode (documents st) /\ documents st <> [].

(** [st'] differs from [st] in the conversation histories at most. *)
Definition same_corpus (st st' : state) : Prop :=
  documents st' = documents st /\ metadata st' = metadata st
  /\ original_data st' = original_data st /\ index st' = index st
  /\ gemini_model st' = gemini_model st.

(** The session of a request and its message, with the defaults of the
    handlers. *)
Definition session_of (body : post_body) : string :=
  default "default" (session_id body).

Definition message_of (body : post_body) : string :=
  default "" (message body).

(** A session that was never seen: its key is not in the map. *)
Definition forget (sid : string) (st : state) : state :=
  set_histories st (delete sid (conversation_histories st)).

(** Every stored history is within the limit. *)
Definition histories_bounded (st : state) : Prop :=
  forall sid h, conversation_histories st !! sid = Some h ->
    (String.length h <= history_limit)%nat.

(** What the retrieval of a chat turn for [msg] yields in [st]: as many
    documents as the smaller of 10 and the size of the corpus, those at the
    ranked positions, in ascending order of distance, none of the documents
    left out being nearer than one retrieved. *)
Definition retrieval_ok (st : state) (msg : string) : Prop :=
  let n := List.length (documents st) in
  let ranked := search_ranked (index st) (encode msg) (Nat.min 10 n) in
  exists docs,
    retrieve st msg = Ok docs
    /\ List.length docs = Nat.min 10 n
    /\ ((n < 10)%nat -> List.length docs = n)
    /\ StronglySorted by_dist ranked
    /\ Forall2 (fun r d => exists i,
                  snd r = Z.of_nat i /\ documents st !! i = Some d
                  /\ fst r = dist (encode msg) (encode d)) ranked docs
    /\ (forall j d r,
          documents st !! j = Some d ->
          ~ In (Z.of_nat j) (map snd ranked) ->
          In r ranked ->
          (fst r <= dist (encode msg) (encode d))%N).

(** The labels of the search of a chat turn for the query vector [q]. *)
Definition chat_search (st : state) (q : vec) : list Z :=
  search (index st) q (Nat.min 10 (List.length (documents st))).

(** The index and the documents of [st] are those of [st0] and agree
    position by position; a search returns positions of documents; a
    document whose encoding is at distance 0 from itself and at a positive
    distance from the encoding of every other document is among the results
    of the search for its own encoding. *)
Definition index_alignment_holds (st0 st : state) : Prop :=
  documents st = documents st0 /\ index st = index st0
  /\ ntotal (index st) = List.length (documents st)
  /\ (forall i d, documents st !! i = Some d ->
        xb (index st) !! i = Some (encode d))
  /\ (forall msg label,
        In label (chat_search st (encode msg)) ->
        exists i d, label = Z.of_nat i /\ documents st !! i = Some d
                    /\ py_index (documents st) label = Ok d
                    /\ xb (index st) !! i = Some (encode d))
  /\ (forall i d,
        documents st !! i = Some d ->
        dist (encode d) (encode d) = 0%N ->
        (forall j d', j <> i -> documents st !! j = Some d' ->
           (0 < dist (encode d) (encode d'))%N) ->
        In (Z.of_nat i) (chat_search st (encode d))).

End ServiceSpec.

(** ** The course filter of the fetcher, as a function of the course *)

Section ScraperSpec.
Context {L : Libs}.

(** The start of a course, when it has one that parses. *)
Definition parsed_start (course : Course) : option datetime :=
  match c_start_at course with
  | Some (JStr s) =>
      if String.eqb s "" then None
      else fromisoformat (replace_char "Z" "+00:00" s)
  | _ => None
  end.

(** The start parses, carries a UTC offset, and is before the cutoff. *)
Definition starts_before_cutoff (course : Course) : bool :=
  match parsed_start course with
  | Some (MkDatetime n (Some z)) => instant n z <? cutoff_date
  | _ => false
  end.

(** The start parses and carries no UTC offset. *)
Definition zoneless_start (course : Course) : Prop :=
  exists n, parsed_start course = Some (MkDatetime n None).

End ScraperSpec.

(** ** The fetcher and the flattener together *)

Section Pipeline.
Context {L : Libs}.

(** In the dataset [ds], every entry of a list of assignments or quizzes is
    flattened with "No submission" as its submission scores, and its
    document ends with that line. *)
Definition scores_are_placeholders (ds : json) : Prop :=
  exists u cs,
    ds = JDict [("user", u); ("courses", JList cs)]
    /\ forall c, In c cs ->
         exists d, c = JDict d
           /\ (forall items a name,
                 dict_lookup "assignments" d = Some (JList items) ->
                 In a items ->
                 it_scores (assignment_item a) = JStr "No submission"
                 /\ exists head,
                      assign_doc name (assignment_item a)
                      = head ++ "- **Submission Scores:** No submission" ++ nl)
           /\ (forall items q name,
                 dict_lookup "quizzes" d = Some (JList items) ->
                 In q items ->
                 it_scores (quiz_item q) = JStr "No submission"
                 /\ exists head,
                      quiz_doc name (quiz_item q)
                      = head ++ "- **Submission Scores:** No submission" ++ nl).

End Pipeline.
(** ** Sample data *)

Definition ada : User := MkUser 7 (JStr "Ada") None (Some (JStr "ada@example.edu")).

(** A course with the given start, assignments and quizzes, and nothing in
    its other sections. *)
Definition plain_course (id : Z) (name : string) (start_at : option json)
    (assignments : result (list Assignment)) (quizzes : list Quiz) : Course :=
  MkCourse (JInt id) (Some (JStr name)) (Some (JStr name)) None start_at None
    (Ok []) assignments (Ok quizzes) (Ok []) (Ok []) (Ok [])
    (Ok (JList [])).

(** HW1 has no submission to retrieve; HW2 was submitted and scored 95. *)
Definition hw1 : Assignment :=
  MkAssignment (JInt 11) (JStr "HW1") (JStr "2025-03-10T23:59:00Z") JNull
    (JInt 10) (Raise "Not Found").

Definition hw2 : Assignment :=
  MkAssignment (JInt 12) (JStr "HW2") JNull (JStr "Read chapter 2")
    (JInt 100)
    (Ok (MkSubmission (JStr "2025-03-12T10:00:00Z") (JInt 95) (JStr "95")
           (JStr "graded") None)).

Definition quiz1 : Quiz :=
  MkQuiz (JInt 21) (JStr "Quiz 1") (JStr "2025-03-14T16:00:00Z") JNull
    (Some (JInt 10))
    (Ok [MkQuizSubmission (Some (JInt 8)) (Some (JStr "2025-03-14T17:00:00Z"))]).

Definition cs101 : Course :=
  plain_course 101 "CS101" (Some (JStr "2025-03-01T00:00:00Z"))
    (Ok [hw1; hw2]) [quiz1].

(** A course that started before the cutoff, one without a start, and one
    whose start carries no UTC offset. *)
Definition old_course : Course :=
  plain_course 90 "HIST200" (Some (JStr "2024-08-26T04:00:00Z")) (Ok []) [].

Definition undated_course : Course := plain_course 91 "Orientation" None (Ok []) [].

Definition zoneless_course : Course :=
  plain_course 92 "MATH140" (Some (JStr "2025-06-01T00:00:00")) (Ok []) [].

(** A course whose list of assignments could not be retrieved. *)
Definition broken_course : Course :=
  plain_course 93 "PHYS211" None (Raise "boom") [].

Definition unwrap (r : result json) : json :=
  match r with
  | Ok v => v
  | Raise _ => JNull
  end.

(** The datasets the script writes for these courses. *)
Definition cs101_dataset : json :=
  Eval vm_compute in
    unwrap (scrape (L := canvas_libs) ada [old_course; cs101]).

Definition broken_dataset : json :=
  Eval vm_compute in unwrap (scrape (L := canvas_libs) ada [broken_course]).

(** Eleven assignments whose names differ in the case of one letter. *)
Definition case_variant (name : string) : Assignment :=
  MkAssignment (JInt 1) (JStr name) JNull JNull JNull (Raise "Not Found").

Definition case_variants : list string :=
  ["homework"; "Homework"; "hOmework"; "hoMework"; "homEwork"; "homeWork";
   "homewOrk"; "homewoRk"; "homeworK"; "HOmework"; "HOMework"].

Definition variants_dataset : json :=
  Eval vm_compute in
    unwrap (scrape (L := uncased_libs) ada
              [plain_course 94 "x" None (Ok (map case_variant case_variants)) []]).

(** The documents and the metadata of a dataset. *)
Definition flat_documents (r : result (list string * list json * json)) : list string :=
  match r with
  | Ok (docs, _, _) => docs
  | Raise _ => []
  end.

Definition flat_metadata (r : result (list string * list json * json)) : list json :=
  match r with
  | Ok (_, metas, _) => metas
  | Raise _ => []
  end.

(** The state of a process started on a dataset that flattened to [docs]
    and [metas], with an API key. *)
Definition started {L : Libs} (docs : list string) (metas : list json)
    (data : json) : state :=
  MkState docs metas data (MkIndex (map encode docs)) true ∅.

Definition cs101_documents : list string :=
  Eval vm_compute in
    flat_documents (load_and_process_data (L := canvas_libs) cs101_dataset).

Definition cs101_metadata : list json :=
  Eval vm_compute in
    flat_metadata (load_and_process_data (L := canvas_libs) cs101_dataset).

Definition cs101_state : state (L := canvas_libs) :=
  started cs101_documents cs101_metadata cs101_dataset.

Definition variants_documents : list string :=
  Eval vm_compute in
    flat_documents (load_and_process_data (L := uncased_libs) variants_dataset).

Definition variants_metadata : list json :=
  Eval vm_compute in
    flat_metadata (load_and_process_data (L := uncased_libs) variants_dataset).

Definition variants_state : state (L := uncased_libs) :=
  started variants_documents variants_metadata variants_dataset.

(** A long message. *)
Fixpoint str_repeat (n : nat) (s : string) : string :=
  match n with
  | O => ""
  | S n' => s ++ str_repeat n' s
  end.

Definition long_message : string := str_repeat (Z.to_nat 10001) "a".

(** A hosted model that answers, and one that fails. *)
Definition answering (now : Z) : world := MkWorld now (fun _ => Ok " Sure. ").
Definition failing (now : Z) : world := MkWorld now (fun _ => Raise "429 quota exceeded").

(** 2025-03-05T15:00:00Z *)
Definition a_moment : Z := wall_us (MkNaive 2025 3 5 15 0 0 0).

(** The prompt of the question about HW1 at that moment. *)
Definition hw1_prompt : string :=
  Eval vm_compute in
    match build_prompt (L := canvas_libs) (failing a_moment) cs101_state
            "When is HW1 due?" with
    | Ok p => p
    | Raise e => e
    end.

(** The process started on the dataset with the failed section. *)
Definition broken_documents : list string :=
  Eval vm_compute in
    flat_documents (load_and_process_data (L := canvas_libs) broken_dataset).

Definition broken_metadata : list json :=
  Eval vm_compute in
    flat_metadata (load_and_process_data (L := canvas_libs) broken_dataset).

Definition broken_state : state (L := canvas_libs) :=
  started broken_documents broken_metadata broken_dataset.

(** The prompt of the long message at that moment. *)
Definition long_prompt : string :=
  Eval vm_compute in
    match build_prompt (L := canvas_libs) (answering a_moment) cs101_state
            long_message with
    | Ok p => p
    | Raise e => e
    end.

(** ** Datasets with any iterable or sized sections *)

Section GeneralDataset.
Context {L : Libs}.

(** What [for x in v] goes through, nothing when [v] is not iterable. *)
Definition section_items (v : json) : list json :=
  match py_iter v with
  | Ok l => l
  | Raise _ => []
  end.

(** [len(v)], 0 when [v] has no length. *)
Definition section_len (v : json) : nat :=
  match py_len v with
  | Ok n => n
  | Raise _ => O
  end.

(** A course record the loops of the flattener and of the summary go
    through without an exception: a dict whose assignments and quizzes are
    lists, strings or dicts. *)
Definition walkable (c : json) : Prop :=
  exists d a q,
    c = JDict d
    /\ py_iter (dict_get "assignments" (JList []) d) = Ok a
    /\ py_iter (dict_get "quizzes" (JList []) d) = Ok q.

(** The documents and the metadata the flattener appends for a record. *)
Definition record_documents (c : json) : list string :=
  match c with
  | JDict d =>
      course_documents d
        (section_items (dict_get "assignments" (JList []) d))
        (section_items (dict_get "quizzes" (JList []) d))
  | _ => []
  end.

Definition record_metadata (c : json) : list json :=
  match c with
  | JDict d =>
      course_metadata d
        (section_items (dict_get "assignments" (JList []) d))
        (section_items (dict_get "quizzes" (JList []) d))
  | _ => []
  end.

(** The entry of the summary for a record. *)
Definition summary_entry (c : json) : json :=
  match c with
  | JDict d =>
      JDict [("name", dict_get "name" (JStr "Unknown Course") d);
             ("assignments_count",
              JInt (Z.of_nat (section_len (dict_get "assignments" (JList []) d))));
             ("quizzes_count",
              JInt (Z.of_nat (section_len (dict_get "quizzes" (JList []) d))))]
  | _ => JNull
  end.

(** The sum of the lengths stored under [key] in the records. *)
Definition total_of (key : string) (cs : list json) : nat :=
  foldr (fun c t =>
           match c with
           | JDict d => (section_len (dict_get key (JList []) d) + t)%nat
           | _ => t
           end) O cs.

(** The document of an entry of a section that is not a record: its text
    as the name, no due date, nothing else. *)
Definition bare_item (x : json) : item :=
  MkItem (JStr (py_str x)) (JStr "No due date") (JStr "") (JStr "").

(** The courses the loop of the fetcher keeps. *)
Definition is_kept (course : Course) : bool :=
  match skip_course course with
  | Ok false => true
  | _ => false
  end.

(** The state with the model present or absent. *)
Definition set_gemini_model (b : bool) (st : state) : state :=
  MkState (documents st) (metadata st) (original_data st) (index st) b
    (conversation_histories st).

(** The hosted model of the world [w] answers whatever it is sent. *)
Definition always_answers (w : world) : Prop :=
  forall h, exists text, generate_content w h = Ok text.

(** Every chat request of the list meets a model that answers. *)
Definition answered (rs : list request) : Prop :=
  Forall (fun r => match r with
                   | PostChat w _ => always_answers w
                   | _ => True
                   end) rs.

(** [s] begins with [p]. *)
Definition starts_with (p s : string) : Prop := exists r, s = p ++ r.

(** A document and a metadata record describe the same item of the course
    named [course_name]: the record has the type whose heading opens the
    document, and names the course. *)
Definition describes (meta : json) (doc : string) : Prop :=
  exists m course_name,
    meta = JDict m
    /\ dict_lookup "course" m = Some course_name
    /\ ((dict_lookup "type" m = Some (JStr "course")
         /\ dict_lookup "title" m = None
         /\ starts_with ("**Course:** " ++ py_str course_name ++ nl) doc)
        \/ (exists title,
              dict_lookup "type" m = Some (JStr "assignment")
              /\ dict_lookup "title" m = Some title
              /\ starts_with ("**Assignment in " ++ py_str course_name ++ ":**"
                              ++ nl ++ "- **Name:** " ++ py_str title ++ nl) doc)
        \/ (exists title,
              dict_lookup "type" m = Some (JStr "quiz")
              /\ dict_lookup "title" m = Some title
              /\ starts_with ("**Quiz in " ++ py_str course_name ++ ":**"
                              ++ nl ++ "- **Title:** " ++ py_str title ++ nl) doc)).

End GeneralDataset.

(** * Properties *)

(** ** Strings *)

Lemma length_append (s t : string) :
  String.length (s ++ t) = (String.length s + String.length t)%nat.
Proof. induction s as [|c s IH]; simpl; [reflexivity | now rewrite IH]. Qed.

Lemma append_assoc (s t u : string) : (s ++ t) ++ u = s ++ (t ++ u).
Proof.
  induction s as [|c s IH]; [reflexivity|].
  change (String c ((s ++ t) ++ u) = String c (s ++ (t ++ u))).
  now f_equal.
Qed.

Lemma append_empty_r (s : string) : s ++ "" = s.
Proof.
  induction s as [|c s IH]; [reflexivity|].
  change (String c (s ++ "") = String c s). now f_equal.
Qed.

Lemma length_str_drop (n : nat) (s : string) :
  String.length (str_drop n s) = (String.length s - n)%nat.
Proof.
  revert s. induction n as [|n IH]; intros s.
  - simpl. lia.
  - destruct s as [|c s]; simpl; [reflexivity | apply IH].
Qed.

(** What [str_drop] leaves is a suffix. *)
Lemma str_drop_suffix (n : nat) (s : string) :
  exists p, s = p ++ str_drop n s /\ String.length p = Nat.min n (String.length s).
Proof.
  revert s. induction n as [|n IH]; intros s.
  - exists "". split; reflexivity.
  - destruct s as [|c s]; simpl.
    + exists "". split; reflexivity.
    + destruct (IH s) as [p [Hp Hl]]. exists (String c p). split.
      * change (String c s = String c (p ++ str_drop n s)). now rewrite <- Hp.
      * simpl. now rewrite Hl.
Qed.

Lemma length_str_suffix (n : nat) (s : string) :
  String.length (str_suffix n s) = Nat.min n (String.length s).
Proof. unfold str_suffix. rewrite length_str_drop. lia. Qed.

Lemma str_suffix_is_suffix (n : nat) (s : string) :
  exists p, s = p ++ str_suffix n s.
Proof.
  unfold str_suffix.
  destruct (str_drop_suffix (String.length s - n) s) as [p [Hp _]]. eauto.
Qed.

Lemma length_limit_history (h : string) :
  (String.length (limit_history h) <= history_limit)%nat.
Proof.
  unfold limit_history. destruct (Nat.ltb_spec history_limit (String.length h)).
  - rewrite length_str_suffix. lia.
  - assumption.
Qed.

(** ** The flattener *)

Section FlattenerFacts.
Context {L : Libs}.

Lemma fold_add_assignment (course_name : json) (items : list json) (a : acc) :
  fold_left (add_assignment course_name) items a
  = ((fst a ++ map (fun x => assign_doc course_name (assignment_item x)) items)%list,
     (snd a ++ map (fun x => item_meta "assignment" course_name (assignment_item x)) items)%list).
Proof.
  revert a. induction items as [|x items IH]; intros [docs metas]; simpl.
  - now rewrite !app_nil_r.
  - rewrite IH. unfold add_assignment, append. simpl.
    now rewrite <- !List.app_assoc.
Qed.

Lemma fold_add_quiz (course_name : json) (items : list json) (a : acc) :
  fold_left (add_quiz course_name) items a
  = ((fst a ++ map (fun x => quiz_doc course_name (quiz_item x)) items)%list,
     (snd a ++ map (fun x => item_meta "quiz" course_name (quiz_item x)) items)%list).
Proof.
  revert a. induction items as [|x items IH]; intros [docs metas]; simpl.
  - now rewrite !app_nil_r.
  - rewrite IH. unfold add_quiz, append. simpl.
    now rewrite <- !List.app_assoc.
Qed.

Lemma process_listed_course (a : acc) c d assignments quizzes :
  listed_course c d assignments quizzes ->
  process_course a c
  = Ok ((fst a ++ course_documents d assignments quizzes)%list,
        (snd a ++ course_metadata d assignments quizzes)%list).
Proof.
  intros [d' assignments' quizzes' Ha Hq]. unfold process_course. simpl.
  rewrite Ha, Hq. simpl. rewrite fold_add_quiz, fold_add_assignment.
  unfold append, course_documents, course_metadata, course_overview. simpl.
  f_equal. f_equal; rewrite <- !List.app_assoc; reflexivity.
Qed.

Lemma process_flattened cs docs metas (a : acc) :
  flattened cs docs metas ->
  process_courses cs a = Ok ((fst a ++ docs)%list, (snd a ++ metas)%list).
Proof.
  intros H. revert a.
  induction H as [|c d assignments quizzes cs docs metas Hc _ IH]; intros a.
  - simpl. now rewrite !app_nil_r; destruct a.
  - cbn [process_courses].
    rewrite (process_listed_course a c d assignments quizzes Hc).
    cbn [bind]. rewrite IH. cbn [fst snd]. now rewrite <- !List.app_assoc.
Qed.

Lemma flattened_lengths cs docs metas :
  flattened cs docs metas -> List.length docs = List.length metas.
Proof.
  induction 1 as [|c d assignments quizzes cs docs metas _ _ IH]; [reflexivity|].
  unfold course_documents, course_metadata.
  rewrite !length_app. simpl. rewrite !length_app, !length_map. lia.
Qed.

(** What the loop body binds for a record with missing fields. *)
Lemma item_of_missing title_key title_dflt (d : pydict) :
  let it := item_of title_key title_dflt (JDict d) in
  (dict_lookup "due_at" d = None -> it_due it = JStr "No due date")
  /\ (dict_lookup "due_at" d = Some JNull -> py_str (it_due it) = "None")
  /\ (dict_lookup "description" d = None -> it_desc it = JStr "No description")
  /\ (dict_lookup "description" d = Some JNull -> py_str (it_desc it) = "None")
  /\ (dict_lookup "submission" d = None -> it_scores it = JStr "No submission")
  /\ (dict_lookup "submission" d = Some JNull -> it_scores it = JStr "No submission").
Proof.
  simpl. unfold dict_get.
  repeat split; intros ->; reflexivity.
Qed.

End FlattenerFacts.

(** C3. For every assignment and every quiz of the dataset the flattener
    emits exactly one document and one metadata record, in order after the
    overview of their course, whatever fields are missing: a missing due
    date, description or submission is rendered as the fixed text
    "No due date", "No description" or "No submission" (a [null] due date or
    description as "None", a [null] submission as "No submission"). *)
Theorem flattener_one_document_per_item {L : Libs} :
  (forall (data : pydict) (cs : list json) docs metas,
      dict_get "courses" (JList []) data = JList cs ->
      flattened cs docs metas ->
      load_and_process_data (JDict data) = Ok (docs, metas, JDict data)
      /\ List.length docs = List.length metas)
  /\ (forall d assignments quizzes,
        List.length (course_documents d assignments quizzes)
        = S (List.length assignments + List.length quizzes)
        /\ List.length (course_metadata d assignments quizzes)
           = S (List.length assignments + List.length quizzes)
        /\ (forall j a, assignments !! j = Some a ->
              course_documents d assignments quizzes !! S j
              = Some (assign_doc (dict_get "name" (JStr "Unknown Course") d)
                        (assignment_item a)))
        /\ (forall j q, quizzes !! j = Some q ->
              course_documents d assignments quizzes !! S (List.length assignments + j)
              = Some (quiz_doc (dict_get "name" (JStr "Unknown Course") d)
                        (quiz_item q))))
  /\ (forall (d : pydict) (it : item),
        it = assignment_item (JDict d) \/ it = quiz_item (JDict d) ->
        (dict_lookup "due_at" d = None -> it_due it = JStr "No due date")
        /\ (dict_lookup "due_at" d = Some JNull -> py_str (it_due it) = "None")
        /\ (dict_lookup "description" d = None -> it_desc it = JStr "No description")
        /\ (dict_lookup "description" d = Some JNull -> py_str (it_desc it) = "None")
        /\ (dict_lookup "submission" d = None -> it_scores it = JStr "No submission")
        /\ (dict_lookup "submission" d = Some JNull -> it_scores it = JStr "No submission")).
Proof.
  split; [|split].
  - intros data cs docs metas Hcs Hfl. split.
    + unfold load_and_process_data. simpl. rewrite Hcs. simpl.
      rewrite (process_flattened cs docs metas ([], []) Hfl). reflexivity.
    + exact (flattened_lengths cs docs metas Hfl).
  - intros d assignments quizzes. unfold course_documents, course_metadata.
    repeat split.
    + simpl. rewrite length_app, !length_map. reflexivity.
    + simpl. rewrite length_app, !length_map. reflexivity.
    + intros j a Hj. simpl. rewrite lookup_app_l.
      * rewrite list_lookup_fmap, Hj. reflexivity.
      * rewrite length_map. eapply lookup_lt_Some, Hj.
    + intros j q Hj. simpl. rewrite lookup_app_r; rewrite length_map; [|lia].
      replace (List.length assignments + j - List.length assignments)%nat with j by lia.
      rewrite list_lookup_fmap, Hj. reflexivity.
  - intros d it [-> | ->]; apply item_of_missing.
Qed.

Lemma flattener_one_document_per_item_witness :
  load_and_process_data (L := canvas_libs) cs101_dataset
  = Ok (["**Course:** CS101" ++ nl ++ "**Code:** CS101" ++ nl;
         "**Assignment in CS101:**" ++ nl ++ "- **Name:** HW1" ++ nl
         ++ "- **Due Date:** 2025-03-10 07:59 PM EDT" ++ nl
         ++ "- **Description:** None" ++ nl
         ++ "- **Submission Scores:** No submission" ++ nl;
         "**Assignment in CS101:**" ++ nl ++ "- **Name:** HW2" ++ nl
         ++ "- **Due Date:** None" ++ nl
         ++ "- **Description:** Read chapter 2" ++ nl
         ++ "- **Submission Scores:** No submission" ++ nl;
         "**Quiz in CS101:**" ++ nl ++ "- **Title:** Quiz 1" ++ nl
         ++ "- **Due Date:** 2025-03-14 12:00 PM EDT" ++ nl
         ++ "- **Description:** None" ++ nl
         ++ "- **Submission Scores:** No submission" ++ nl],
        [JDict [("type", JStr "course"); ("course", JStr "CS101")];
         JDict [("type", JStr "assignment"); ("course", JStr "CS101");
                ("title", JStr "HW1")];
         JDict [("type", JStr "assignment"); ("course", JStr "CS101");
                ("title", JStr "HW2")];
         JDict [("type", JStr "quiz"); ("course", JStr "CS101");
                ("title", JStr "Quiz 1")]],
        cs101_dataset).
Proof.
  unfold cs101_dataset.
  lazymatch goal with
  | |- load_and_process_data (JDict ?data) = _ =>
      lazymatch eval vm_compute in (dict_get "courses" (JList []) data) with
      | JList [JDict ?d] =>
          lazymatch eval vm_compute in
            (dict_get "assignments" (JList []) d, dict_get "quizzes" (JList []) d) with
          | (JList ?a, JList ?q) =>
              exact (proj1 (proj1 (flattener_one_document_per_item (L := canvas_libs))
                              data [JDict d] _ _ eq_refl
                              (flattened_cons (JDict d) d a q [] [] []
                                 (listed_intro d a q eq_refl eq_refl)
                                 flattened_nil)))
          end
      end
  end.
Defined.

(** C5. The flattener parses a stored due-date string; a parsed date
    without zone is taken as UTC; the date is converted to the zone of the
    user and rendered with [strftime_due]; when the parse (or the
    conversion) fails, and when the string is empty or the placeholder, the
    stored string is kept unchanged. With the parser and the zone table read
    as for the timestamps of Canvas, "2025-03-10T23:59:00Z" renders as
    "2025-03-10 07:59 PM EDT". *)
Theorem due_date_normalization {L : Libs} :
  (forall s, dateutil_parse s = None -> due_of (JStr s) = JStr s)
  /\ (forall s fields loc,
        s <> "" -> s <> "No due date" ->
        dateutil_parse s = Some (MkDatetime fields None) ->
        astimezone USER_TIMEZONE fields UTC = Ok loc ->
        due_of (JStr s) = JStr (strftime_due loc))
  /\ (forall s fields z loc,
        s <> "" -> s <> "No due date" ->
        dateutil_parse s = Some (MkDatetime fields (Some z)) ->
        astimezone USER_TIMEZONE fields z = Ok loc ->
        due_of (JStr s) = JStr (strftime_due loc))
  /\ (forall s dt e,
        dateutil_parse s = Some dt ->
        astimezone USER_TIMEZONE (dt_fields dt) (default UTC (dt_tz dt)) = Raise e ->
        due_of (JStr s) = JStr s)
  /\ (forall s, s = "" \/ s = "No due date" -> due_of (JStr s) = JStr s)
  /\ due_of (L := canvas_libs) (JStr "2025-03-10T23:59:00Z")
     = JStr "2025-03-10 07:59 PM EDT".
Proof.
  assert (Hgo : forall s, s <> "" -> s <> "No due date" ->
            truthy (JStr s) && ne_str (JStr s) "No due date" = true).
  { intros s H1 H2. simpl.
    apply String.eqb_neq in H1, H2. now rewrite H1, H2. }
  refine (conj _ (conj _ (conj _ (conj _ (conj _ _))))).
  - intros s Hp. unfold due_of, convert_due. rewrite Hp.
    now destruct (truthy (JStr s) && ne_str (JStr s) "No due date").
  - intros s fields loc H1 H2 Hp Hc. unfold due_of, convert_due.
    rewrite (Hgo s H1 H2), Hp. cbn [dt_fields dt_tz]. now rewrite Hc.
  - intros s fields z loc H1 H2 Hp Hc. unfold due_of, convert_due.
    rewrite (Hgo s H1 H2), Hp. cbn [dt_fields dt_tz]. now rewrite Hc.
  - intros s dt e Hp Hc. unfold due_of, convert_due. rewrite Hp.
    destruct dt as [fields [z|]]; cbn [dt_fields dt_tz default from_option id] in Hc |- *;
      rewrite Hc; cbn [bind]; now destruct (_ && _).
  - intros s [-> | ->]; reflexivity.
  - vm_compute. reflexivity.
Qed.

Lemma due_date_normalization_witness :
  due_of (L := canvas_libs) (JStr "next week") = JStr "next week"
  /\ due_of (L := canvas_libs) (JStr "2025-03-14T16:00:00")
     = JStr "2025-03-14 12:00 PM EDT"
  /\ due_of (L := canvas_libs) (JStr "2025-12-01T04:59:59+00:00")
     = JStr "2025-11-30 11:59 PM EST"
  /\ due_of (L := canvas_libs) (JStr "0001-01-01T00:00:00Z")
     = JStr "0001-01-01T00:00:00Z".
Proof.
  pose proof (due_date_normalization (L := canvas_libs))
    as (Hraw & Hnaive & Haware & Hfail & _).
  split; [|split; [|split]].
  - apply Hraw. vm_compute. reflexivity.
  - apply (Hnaive _ (MkNaive 2025 3 14 16 0 0 0)
             (MkNaive 2025 3 14 12 0 0 0, EDT));
      [discriminate | discriminate | vm_compute; reflexivity
      | vm_compute; reflexivity].
  - apply (Haware _ (MkNaive 2025 12 1 4 59 59 0) UTC
             (MkNaive 2025 11 30 23 59 59 0, EST));
      [discriminate | discriminate | vm_compute; reflexivity
      | vm_compute; reflexivity].
  - apply (Hfail _ (MkDatetime (MkNaive 1 1 1 0 0 0 0) (Some UTC))
             "date value out of range"); vm_compute; reflexivity.
Defined.

(** ** The fetcher *)

Section ScraperFacts.
Context {L : Libs}.
Variable user : User.

(** The loop only ever appends records built by [course_data]. *)
Lemma collect_elements (courses : list Course) (out res : list json) :
  collect user courses out = Ok res ->
  forall c, In c res ->
    In c out \/ exists course, In course courses /\ c = course_data user course.
Proof.
  revert out res. induction courses as [|course rest IH]; intros out res H c Hc.
  - simpl in H. injection H as <-. now left.
  - simpl in H. destruct (skip_course course) as [skip|e]; [|discriminate].
    simpl in H. destruct skip.
    + destruct (IH _ _ H c Hc) as [Hin | (x & Hx & ->)]; [now left|].
      right. exists x. split; [now right | reflexivity].
    + destruct (IH _ _ H c Hc) as [Hin | (x & Hx & ->)].
      * apply in_app_or in Hin. destruct Hin as [Hin | [<- | []]]; [now left|].
        right. exists course. split; [now left | reflexivity].
      * right. exists x. split; [now right | reflexivity].
Qed.

(** No record of a submission has a key "scores". *)
Lemma assignment_scores (a : Assignment) :
  it_scores (assignment_item (assignment_data a)) = JStr "No submission".
Proof.
  unfold assignment_item, assignment_data, submission_data. simpl.
  unfold dict_get. simpl. destruct (get_submission a); reflexivity.
Qed.

Lemma quiz_scores (q : Quiz) :
  it_scores (quiz_item (quiz_data q)) = JStr "No submission".
Proof.
  unfold quiz_item, quiz_data, quiz_submission_data. simpl.
  unfold dict_get. simpl.
  destruct (get_quiz_submissions q) as [[|s l]|e]; reflexivity.
Qed.

End ScraperFacts.

(** C10. In a dataset the fetcher produced, every assignment and every quiz
    is flattened with "No submission" as its submission scores, also when a
    submission with a score was retrieved: the fetcher stores the score
    under "score", the flattener looks for "scores". *)
Theorem submission_scores_always_placeholder {L : Libs}
    (user : User) (courses : list Course) (ds : json) :
  scrape user courses = Ok ds -> scores_are_placeholders ds.
Proof.
  intros H. unfold scrape in H. unfold scores_are_placeholders.
  destruct (collect user courses []) as [cs|e] eqn:Hc; [|discriminate].
  simpl in H. injection H as <-.
  eexists. exists cs. split; [reflexivity|].
  intros c Hin.
  destruct (collect_elements user courses [] cs Hc c Hin) as [[] | (course & _ & ->)].
  eexists. split; [reflexivity|]. split.
  - intros items a name Hl Ha. simpl in Hl. injection Hl as Hl.
    unfold assignments_data in Hl.
    destruct (get_assignments course) as [l|e]; [|discriminate].
    simpl in Hl. injection Hl as <-.
    apply in_map_iff in Ha. destruct Ha as (x & <- & _).
    pose proof (assignment_scores x) as Hs. split; [exact Hs|].
    unfold assign_doc. rewrite Hs. simpl (py_str (JStr _)).
    set (it := assignment_item (assignment_data x)).
    exists ("**Assignment in " ++ py_str name ++ ":**" ++ nl
            ++ "- **Name:** " ++ py_str (it_name it) ++ nl
            ++ "- **Due Date:** " ++ py_str (it_due it) ++ nl
            ++ "- **Description:** " ++ py_str (it_desc it) ++ nl).
    rewrite !append_assoc. reflexivity.
  - intros items q name Hl Hq. simpl in Hl. injection Hl as Hl.
    unfold quizzes_data in Hl.
    destruct (get_quizzes course) as [l|e]; [|discriminate].
    simpl in Hl. injection Hl as <-.
    apply in_map_iff in Hq. destruct Hq as (x & <- & _).
    pose proof (quiz_scores x) as Hs. split; [exact Hs|].
    unfold quiz_doc. rewrite Hs. simpl (py_str (JStr _)).
    set (it := quiz_item (quiz_data x)).
    exists ("**Quiz in " ++ py_str name ++ ":**" ++ nl
            ++ "- **Title:** " ++ py_str (it_name it) ++ nl
            ++ "- **Due Date:** " ++ py_str (it_due it) ++ nl
            ++ "- **Description:** " ++ py_str (it_desc it) ++ nl).
    rewrite !append_assoc. reflexivity.
Qed.

Lemma submission_scores_always_placeholder_witness :
  scrape (L := canvas_libs) ada [old_course; cs101] = Ok cs101_dataset
  /\ scores_are_placeholders (L := canvas_libs) cs101_dataset.
Proof.
  assert (H : scrape (L := canvas_libs) ada [old_course; cs101] = Ok cs101_dataset)
    by (vm_compute; reflexivity).
  split; [exact H|].
  exact (submission_scores_always_placeholder ada [old_course; cs101] cs101_dataset H).
Defined.

(** ** The index and the retrieval *)

Lemma nth_error_lookup {A} (l : list A) (i : nat) : nth_error l i = l !! i.
Proof.
  revert i. induction l as [|x l IH]; intros [|i]; simpl; auto.
Qed.

Lemma py_index_lookup {A} (l : list A) (i : nat) (x : A) :
  l !! i = Some x -> py_index l (Z.of_nat i) = Ok x.
Proof.
  intros H. unfold py_index.
  destruct (Z.ltb_spec (Z.of_nat i) 0); [lia|].
  destruct (Z.leb_spec 0 (Z.of_nat i)); [|lia].
  now rewrite Nat2Z.id, nth_error_lookup, H.
Qed.

Lemma mapM_Forall2 {A B} (f : A -> result B) (P : A -> B -> Prop) (l : list A) :
  (forall x, x ∈ l -> exists y, f x = Ok y /\ P x y) ->
  exists ys, mapM f l = Ok ys /\ Forall2 P l ys.
Proof.
  induction l as [|x l IH]; intros H.
  - exists []. split; [reflexivity | constructor].
  - destruct (H x) as (y & Hy & Py); [left|].
    destruct IH as (ys & Hys & Pys); [intros z Hz; apply H; now right|].
    exists (y :: ys). split; [|now constructor].
    simpl. now rewrite Hy, Hys.
Qed.

#[export] Instance by_dist_total : Total by_dist.
Proof. intros a b. unfold by_dist. lia. Qed.

#[export] Instance by_dist_trans : Transitive by_dist.
Proof. intros a b c. unfold by_dist. lia. Qed.

Section IndexFacts.
Context {L : Libs}.

(** A scored position is a stored vector with its distance and its place. *)
Lemma elem_of_scored (idx : IndexFlatL2) (q : vec) (r : N * Z) :
  r ∈ scored idx q <->
  exists i v, xb idx !! i = Some v /\ r = (dist q v, Z.of_nat i).
Proof.
  unfold scored. rewrite elem_of_lookup_imap. split.
  - intros (i & v & -> & H). eauto.
  - intros (i & v & H & ->). eauto.
Qed.

Lemma length_search_ranked (idx : IndexFlatL2) (q : vec) (k : nat) :
  List.length (search_ranked idx q k) = Nat.min k (ntotal idx).
Proof.
  unfold search_ranked, ntotal.
  rewrite length_take, (Permutation_length (merge_sort_Permutation by_dist _)).
  unfold scored. now rewrite length_imap.
Qed.

Lemma search_ranked_sorted (idx : IndexFlatL2) (q : vec) (k : nat) :
  StronglySorted by_dist (search_ranked idx q k).
Proof.
  unfold search_ranked.
  apply (StronglySorted_app_1_l by_dist _ (drop k (merge_sort by_dist (scored idx q)))).
  rewrite take_drop. apply StronglySorted_merge_sort; apply _.
Qed.

Lemma elem_of_search_ranked (idx : IndexFlatL2) (q : vec) (k : nat) (r : N * Z) :
  r ∈ search_ranked idx q k ->
  exists i v, xb idx !! i = Some v /\ r = (dist q v, Z.of_nat i).
Proof.
  intros H. apply elem_of_scored.
  apply (subseteq_take k) in H.
  now rewrite (merge_sort_Permutation by_dist _) in H.
Qed.

(** No label is missing when [k] does not exceed the size of the index. *)
Lemma search_labels (idx : IndexFlatL2) (q : vec) (k : nat) :
  (k <= ntotal idx)%nat -> search idx q k = map snd (search_ranked idx q k).
Proof.
  intros H. unfold search.
  replace (k - ntotal idx)%nat with O by lia. simpl. apply app_nil_r.
Qed.

(** A position at distance 0 from the query, every other one farther, is
    the first result. *)
Lemma nearest_is_first (idx : IndexFlatL2) (q : vec) (k i : nat) (v : vec) :
  xb idx !! i = Some v ->
  dist q v = 0%N ->
  (forall j w, j <> i -> xb idx !! j = Some w -> (0 < dist q w)%N) ->
  (0 < k)%nat ->
  In (Z.of_nat i) (search idx q k).
Proof.
  intros Hi H0 Hfar Hk.
  assert (Hin : (dist q v, Z.of_nat i) ∈ merge_sort by_dist (scored idx q)).
  { rewrite (merge_sort_Permutation by_dist _). apply elem_of_scored. eauto. }
  pose proof (StronglySorted_merge_sort by_dist (scored idx q)) as Hs.
  unfold search, search_ranked.
  destruct (merge_sort by_dist (scored idx q)) as [|h t] eqn:Hm.
  { now apply elem_of_nil in Hin. }
  assert (Hh : h ∈ scored idx q).
  { rewrite <- (merge_sort_Permutation by_dist (scored idx q)), Hm. left. }
  apply elem_of_scored in Hh. destruct Hh as (j & w & Hj & ->).
  assert (Hle : (dist q w <= dist q v)%N).
  { apply elem_of_cons in Hin. destruct Hin as [Heq | Hin].
    - injection Heq as -> _. lia.
    - apply StronglySorted_cons in Hs. destruct Hs as [Hall _].
      rewrite Forall_forall in Hall. exact (Hall _ Hin). }
  destruct (decide (j = i)) as [-> | Hne].
  - destruct k; [lia|]. simpl. now left.
  - specialize (Hfar j w Hne Hj). lia.
Qed.

End IndexFacts.

(** ** The service *)

Section ServiceFacts.
Context {L : Libs}.

Lemma same_corpus_refl (st : state) : same_corpus st st.
Proof. now repeat split. Qed.

Lemma same_corpus_trans (a b c : state) :
  same_corpus a b -> same_corpus b c -> same_corpus a c.
Proof.
  intros (H1 & H2 & H3 & H4 & H5) (K1 & K2 & K3 & K4 & K5).
  repeat split; congruence.
Qed.

Lemma same_corpus_set_histories (st : state) h :
  same_corpus st (set_histories st h).
Proof. now repeat split. Qed.

Lemma set_histories_twice (st : state) h h' :
  set_histories (set_histories st h) h' = set_histories st h'.
Proof. reflexivity. Qed.

(** The prompt is built from the corpus and the clock alone. *)
Lemma build_prompt_set_histories (w : world) (st : state) h (msg : string) :
  build_prompt w (set_histories st h) msg = build_prompt w st msg.
Proof. reflexivity. Qed.

Lemma call_model_set_histories (w : world) (st : state) h (s : string) :
  call_model w (set_histories st h) s = call_model w st s.
Proof. reflexivity. Qed.

(** A chat turn whose model call fails. *)
Lemma chat_failed (w : world) (body : post_body) (st : state) prompt e :
  message_of body <> "" ->
  build_prompt w st (message_of body) = Ok prompt ->
  call_model w st (history st (session_of body) ++ nl ++ prompt) = Raise e ->
  chat w body st
  = (error_response 500 e,
     set_histories st
       (<[session_of body := history st (session_of body) ++ nl ++ prompt]>
          (conversation_histories st))).
Proof.
  unfold message_of, session_of. intros Hm Hp Hc. unfold chat.
  apply String.eqb_neq in Hm. rewrite Hm.
  unfold history in *.
  destruct (conversation_histories st !! default "default" (session_id body))
    as [h|] eqn:Hl.
  - rewrite Hp. simpl. rewrite Hl. simpl in Hc |- *.
    rewrite call_model_set_histories, Hc. reflexivity.
  - rewrite build_prompt_set_histories, Hp. simpl.
    rewrite lookup_insert_eq. simpl in Hc |- *.
    rewrite !call_model_set_histories, Hc, set_histories_twice.
    simpl. now rewrite insert_insert_eq.
Qed.

(** A chat turn that completes. *)
Lemma chat_completed (w : world) (body : post_body) (st : state) prompt text :
  message_of body <> "" ->
  build_prompt w st (message_of body) = Ok prompt ->
  call_model w st (history st (session_of body) ++ nl ++ prompt) = Ok text ->
  chat w body st
  = (MkResponse 200 [("response", JStr (strip text))],
     set_histories st
       (<[session_of body :=
            limit_history ((history st (session_of body) ++ nl ++ prompt)
                           ++ " " ++ strip text)]>
          (conversation_histories st))).
Proof.
  unfold message_of, session_of. intros Hm Hp Hc. unfold chat.
  apply String.eqb_neq in Hm. rewrite Hm.
  unfold history in *.
  destruct (conversation_histories st !! default "default" (session_id body))
    as [h|] eqn:Hl.
  - rewrite Hp. simpl. rewrite Hl. simpl in Hc |- *.
    rewrite call_model_set_histories, Hc, set_histories_twice.
    simpl. now rewrite insert_insert_eq.
  - rewrite build_prompt_set_histories, Hp. simpl.
    rewrite lookup_insert_eq. simpl in Hc |- *.
    rewrite !call_model_set_histories, Hc, !set_histories_twice.
    simpl. now rewrite !insert_insert_eq.
Qed.

Lemma chat_same_corpus (w : world) (body : post_body) (st : state) :
  same_corpus st (snd (chat w body st)).
Proof.
  unfold chat. destruct (String.eqb _ ""); [apply same_corpus_refl|].
  set (st0 := match conversation_histories st !! _ with
              | Some _ => st
              | None => _
              end).
  assert (H0 : same_corpus st st0).
  { subst st0. destruct (_ !! _); [apply same_corpus_refl|].
    apply same_corpus_set_histories. }
  destruct (build_prompt w st0 _); [|exact H0].
  simpl. destruct (call_model _ _ _); simpl;
    (eapply same_corpus_trans; [exact H0|]); now repeat split.
Qed.

Lemma reset_same_corpus (body : post_body) (st : state) :
  same_corpus st (snd (reset_chat body st)).
Proof.
  unfold reset_chat. simpl. destruct (_ !! _);
    [apply same_corpus_set_histories | apply same_corpus_refl].
Qed.

Lemma handle_same_corpus (r : request) (st : state) :
  same_corpus st (handle r st).
Proof.
  destruct r; simpl;
    [apply chat_same_corpus | apply reset_same_corpus
    | apply same_corpus_refl | apply same_corpus_refl].
Qed.

(** Nothing the process serves touches the documents or the index. *)
Lemma run_same_corpus (rs : list request) (st : state) :
  same_corpus st (run rs st).
Proof.
  revert st. induction rs as [|r rs IH]; intros st.
  - apply same_corpus_refl.
  - simpl. eapply same_corpus_trans; [apply handle_same_corpus | apply IH].
Qed.

Lemma startup_aligned (canvas_data : json) (api_key : bool) (st : state) :
  startup canvas_data api_key = Ok st ->
  aligned st /\ conversation_histories st = ∅.
Proof.
  unfold startup. intros H.
  destruct (load_and_process_data canvas_data) as [[[docs metas] data]|e];
    [|discriminate].
  simpl in H. unfold build_faiss_index in H.
  destruct docs as [|doc docs]; [discriminate|].
  simpl in H. injection H as <-. repeat split. discriminate.
Qed.

Lemma aligned_same_corpus (st st' : state) :
  same_corpus st st' -> aligned st -> aligned st'.
Proof.
  intros (H1 & _ & _ & H4 & _) [Ha Hne]. unfold aligned. now rewrite H1, H4.
Qed.

(** The retrieval of a chat turn in an aligned state: one document per
    ranked position, the one at that position. *)
Lemma retrieve_aligned (st : state) (msg : string) :
  aligned st ->
  exists docs,
    retrieve st msg = Ok docs
    /\ Forall2 (fun r d => exists i,
                  snd r = Z.of_nat i /\ documents st !! i = Some d
                  /\ fst r = dist (encode msg) (encode d))
         (search_ranked (index st) (encode msg)
            (Nat.min 10 (List.length (documents st))))
         docs.
Proof.
  intros [Ha Hne]. unfold retrieve.
  assert (Hn : ntotal (index st) = List.length (documents st))
    by (unfold ntotal; now rewrite Ha, length_map).
  rewrite search_labels by lia.
  set (ranked := search_ranked _ _ _).
  destruct (mapM_Forall2 (fun r => py_index (documents st) (snd r))
              (fun r d => exists i,
                  snd r = Z.of_nat i /\ documents st !! i = Some d
                  /\ fst r = dist (encode msg) (encode d)) ranked)
    as (docs & Hd & HF).
  { intros r Hr. apply elem_of_search_ranked in Hr.
    destruct Hr as (i & v & Hi & ->). rewrite Ha, list_lookup_fmap in Hi.
    destruct (documents st !! i) as [d|] eqn:Hdi; [|discriminate].
    injection Hi as <-. exists d. split; [now apply py_index_lookup|].
    exists i. auto. }
  exists docs. split; [|exact HF].
  rewrite <- Hd. clear. induction ranked as [|r l IH]; [reflexivity|].
  simpl. now rewrite IH.
Qed.

End ServiceFacts.

(** A dataset that flattens to a non-empty list starts the process. *)
Lemma startup_flattened {L : Libs} (canvas_data : json) (api_key : bool)
    doc docs metas data :
  load_and_process_data canvas_data = Ok (doc :: docs, metas, data) ->
  startup canvas_data api_key
  = Ok (MkState (doc :: docs) metas data (MkIndex (map encode (doc :: docs)))
          api_key ∅).
Proof. intros H. unfold startup. rewrite H. reflexivity. Qed.

Lemma cs101_startup :
  startup (L := canvas_libs) cs101_dataset true = Ok cs101_state.
Proof.
  unfold cs101_state, started, cs101_documents, cs101_metadata.
  apply startup_flattened. vm_compute. reflexivity.
Qed.

Lemma variants_startup :
  startup (L := uncased_libs) variants_dataset true = Ok variants_state.
Proof.
  unfold variants_state, started, variants_documents, variants_metadata.
  apply startup_flattened. vm_compute. reflexivity.
Qed.

(** C6. For every chat request against the corpus of a started process
    (which is never empty), the retrieval yields, without an error, as many
    documents as the smaller of 10 and the number of documents, in ascending
    order of distance; a corpus of fewer than 10 documents is retrieved
    whole. *)
Theorem retrieval_count {L : Libs} (canvas_data : json) (api_key : bool)
    (st0 : state) (rs : list request) (msg : string) :
  startup canvas_data api_key = Ok st0 ->
  retrieval_ok (run rs st0) msg.
Proof.
  intros Hs. apply startup_aligned in Hs. destruct Hs as [Hal _].
  pose proof (aligned_same_corpus _ _ (run_same_corpus rs st0) Hal) as Ha.
  set (st := run rs st0) in *. unfold retrieval_ok.
  destruct (retrieve_aligned st msg Ha) as (docs & Hr & HF).
  assert (Hn : ntotal (index st) = List.length (documents st)).
  { destruct Ha as [Hx _]. unfold ntotal. now rewrite Hx, length_map. }
  assert (Hlen : List.length docs = Nat.min 10 (List.length (documents st))).
  { rewrite <- (Forall2_length _ _ _ HF), length_search_ranked. lia. }
  exists docs. split; [exact Hr|]. split; [exact Hlen|].
  split; [lia|]. split; [apply search_ranked_sorted|]. split; [exact HF|].
  intros j d r Hj Hnot Hin.
  set (q := encode msg) in *. set (k := Nat.min 10 _) in *.
  assert (Hx : (dist q (encode d), Z.of_nat j) ∈ merge_sort by_dist (scored (index st) q)).
  { rewrite (merge_sort_Permutation by_dist _). apply elem_of_scored.
    exists j, (encode d). split; [|reflexivity].
    destruct Ha as [Hxb _]. now rewrite Hxb, list_lookup_fmap, Hj. }
  rewrite <- (take_drop k) in Hx. apply elem_of_app in Hx.
  destruct Hx as [Hx | Hx].
  - exfalso. apply Hnot. apply in_map_iff.
    exists (dist q (encode d), Z.of_nat j). split; [reflexivity|].
    now apply list_elem_of_In.
  - pose proof (StronglySorted_merge_sort by_dist (scored (index st) q)) as Hss.
    rewrite <- (take_drop k) in Hss.
    apply list_elem_of_In in Hin.
    exact (StronglySorted_app_1_elem_of by_dist _ _ _ _ Hss Hin Hx).
Qed.

Lemma retrieval_count_witness :
  startup (L := canvas_libs) cs101_dataset true = Ok cs101_state
  /\ retrieval_ok
       (run [PostChat (answering a_moment) (MkBody (Some "hello") None)]
          cs101_state)
       "When is HW1 due?".
Proof.
  split; [exact cs101_startup|].
  exact (retrieval_count cs101_dataset true cs101_state _ _ cs101_startup).
Defined.

(** C1 (amended). From startup on and after any requests, the index and the
    documents are the ones built at startup, of the same length and agreeing
    position by position; every position a search returns is the position
    of a document; and a document whose encoding lies at a positive distance
    from the encoding of every other document is among the results of the
    search for its own encoding. *)
Theorem index_alignment {L : Libs} (canvas_data : json) (api_key : bool)
    (st0 : state) (rs : list request) :
  startup canvas_data api_key = Ok st0 ->
  index_alignment_holds st0 (run rs st0).
Proof.
  intros Hs. apply startup_aligned in Hs. destruct Hs as [Hal _].
  pose proof (run_same_corpus rs st0) as Hsame.
  pose proof (aligned_same_corpus _ _ Hsame Hal) as Ha.
  destruct Hsame as (Hd & _ & _ & Hi & _).
  set (st := run rs st0) in *. destruct Ha as [Hxb Hne].
  assert (Hn : ntotal (index st) = List.length (documents st))
    by (unfold ntotal; now rewrite Hxb, length_map).
  assert (Hpos : forall i d, documents st !! i = Some d ->
                   xb (index st) !! i = Some (encode d)).
  { intros i d H. now rewrite Hxb, list_lookup_fmap, H. }
  unfold index_alignment_holds, chat_search.
  split; [exact Hd|]. split; [exact Hi|]. split; [exact Hn|].
  split; [exact Hpos|]. split.
  - intros msg label Hin. rewrite search_labels in Hin by lia.
    apply in_map_iff in Hin. destruct Hin as (r & <- & Hr).
    apply list_elem_of_In, elem_of_search_ranked in Hr.
    destruct Hr as (i & v & Hv & ->). simpl.
    rewrite Hxb, list_lookup_fmap in Hv.
    destruct (documents st !! i) as [d|] eqn:Hdi; [|discriminate].
    exists i, d. split; [reflexivity|]. split; [exact Hdi|].
    split; [now apply py_index_lookup | now apply Hpos].
  - intros i d Hdi H0 Hfar.
    apply (nearest_is_first _ _ _ i (encode d)); [now apply Hpos | exact H0 | |].
    + intros j w Hj Hw. rewrite Hxb, list_lookup_fmap in Hw.
      destruct (documents st !! j) as [d'|] eqn:Hdj; [|discriminate].
      injection Hw as <-. now apply (Hfar j d').
    + destruct (documents st); [congruence | simpl; lia].
Qed.

Lemma index_alignment_witness :
  let st := run [PostChat (answering a_moment) (MkBody (Some "hello") None);
                 PostResetChat (MkBody None None); GetDataSummary] cs101_state in
  startup (L := canvas_libs) cs101_dataset true = Ok cs101_state
  /\ index_alignment_holds cs101_state st
  /\ In 1 (chat_search st (encode (nth 1 cs101_documents ""))).
Proof.
  intros st.
  pose proof (index_alignment cs101_dataset true cs101_state
                [PostChat (answering a_moment) (MkBody (Some "hello") None);
                 PostResetChat (MkBody None None); GetDataSummary]
                cs101_startup) as H.
  fold st in H. split; [exact cs101_startup|]. split; [exact H|].
  destruct H as (Hd & _ & _ & _ & _ & Hself).
  apply (Hself 1%nat (nth 1 cs101_documents "")).
  - rewrite Hd. reflexivity.
  - vm_compute. reflexivity.
  - intros j d' Hj Hl. rewrite Hd in Hl.
    destruct j as [|[|[|[|j]]]]; try congruence; try discriminate Hl;
      injection Hl as <-; vm_compute; reflexivity.
Defined.

(** The claim C1 as stated fails: an encoder that does not see the case of
    letters gives the eleven assignments of [variants_dataset], pairwise
    distinct as documents, one and the same vector; the search for that
    vector returns ten of them, and document 7 is not among the results of
    the search for its own encoding. *)
Lemma index_alignment_counterexample :
  startup (L := uncased_libs) variants_dataset true = Ok variants_state
  /\ NoDup (documents variants_state)
  /\ exists d,
       documents variants_state !! 7%nat = Some d
       /\ ~ In 7 (chat_search variants_state (encode d)).
Proof.
  split; [exact variants_startup|]. split.
  - apply (bool_decide_unpack _). vm_compute. exact I.
  - eexists. split; [reflexivity|].
    vm_compute. intros H.
    repeat (destruct H as [H | H]; [discriminate H|]). exact H.
Qed.

(** C2 (amended). When the call of the hosted model raises, the request
    returns the structured error (status 500, the message under "error",
    no response), and the stored history of the session is the history
    before the request followed by a newline and the outgoing prompt; the
    other sessions, the documents and the index are untouched. *)
Theorem failed_turn_keeps_prompt {L : Libs} (w : world) (body : post_body)
    (st : state) (prompt e : string) :
  message_of body <> "" ->
  build_prompt w st (message_of body) = Ok prompt ->
  call_model w st (history st (session_of body) ++ nl ++ prompt) = Raise e ->
  fst (chat w body st) = error_response 500 e
  /\ dict_lookup "response" (payload (fst (chat w body st))) = None
  /\ history (snd (chat w body st)) (session_of body)
     = history st (session_of body) ++ nl ++ prompt
  /\ (forall sid, sid <> session_of body ->
        conversation_histories (snd (chat w body st)) !! sid
        = conversation_histories st !! sid)
  /\ same_corpus st (snd (chat w body st)).
Proof.
  intros Hm Hp Hc. rewrite (chat_failed w body st prompt e Hm Hp Hc).
  cbn [fst snd]. split; [reflexivity|]. split; [reflexivity|]. split.
  - unfold history at 1. cbn [conversation_histories set_histories].
    now rewrite lookup_insert_eq.
  - split; [|apply same_corpus_set_histories].
    intros sid Hne. cbn [conversation_histories set_histories].
    now rewrite lookup_insert_ne.
Qed.

Lemma failed_turn_keeps_prompt_witness :
  let body := MkBody (Some "When is HW1 due?") (Some "u1") in
  build_prompt (failing a_moment) cs101_state (message_of body) = Ok hw1_prompt
  /\ fst (chat (failing a_moment) body cs101_state)
     = error_response 500 "429 quota exceeded"
  /\ history (snd (chat (failing a_moment) body cs101_state)) (session_of body)
     = history cs101_state (session_of body) ++ nl ++ hw1_prompt.
Proof.
  intros body.
  assert (Hp : build_prompt (failing a_moment) cs101_state (message_of body)
               = Ok hw1_prompt) by (vm_compute; reflexivity).
  destruct (failed_turn_keeps_prompt (failing a_moment) body cs101_state
              hw1_prompt "429 quota exceeded") as (Hr & _ & Hh & _).
  - discriminate.
  - exact Hp.
  - reflexivity.
  - split; [exact Hp|]. split; [exact Hr | exact Hh].
Defined.

(** The claim C2 as stated fails: after a turn that completed, a second
    turn of the same session on which the model call raises leaves a stored
    history that is not the one before the request. *)
Lemma failed_turn_counterexample :
  let body := MkBody (Some "When is HW1 due?") (Some "u1") in
  let st1 := snd (chat (answering a_moment) body cs101_state) in
  fst (chat (failing a_moment) body st1) = error_response 500 "429 quota exceeded"
  /\ history (snd (chat (failing a_moment) body st1)) "u1" <> history st1 "u1".
Proof.
  split.
  - vm_compute. reflexivity.
  - apply String.eqb_neq. vm_compute. reflexivity.
Qed.

(** C7 (amended). After a chat turn that completed, the stored history of
    the session that took the turn is at most its most recent 10,000
    characters: when the history with the prompt and the response appended
    exceeds 10,000 characters, exactly its last 10,000 are kept; otherwise
    all of it is. The histories of the other sessions are as before, so when
    all were within the limit before the turn, all are after it. *)
Theorem history_truncated_after_turn {L : Libs} (w : world) (body : post_body)
    (st : state) (prompt text : string) :
  message_of body <> "" ->
  build_prompt w st (message_of body) = Ok prompt ->
  call_model w st (history st (session_of body) ++ nl ++ prompt) = Ok text ->
  let sid := session_of body in
  let full := (history st sid ++ nl ++ prompt) ++ " " ++ strip text in
  let st' := snd (chat w body st) in
  fst (chat w body st) = MkResponse 200 [("response", JStr (strip text))]
  /\ (String.length (history st' sid) <= Z.to_nat 10000)%nat
  /\ ((String.length full <= Z.to_nat 10000)%nat -> history st' sid = full)
  /\ ((Z.to_nat 10000 < String.length full)%nat ->
        history st' sid = str_suffix (Z.to_nat 10000) full
        /\ String.length (history st' sid) = Z.to_nat 10000
        /\ exists dropped, full = dropped ++ history st' sid)
  /\ (forall sid', sid' <> sid ->
        conversation_histories st' !! sid' = conversation_histories st !! sid')
  /\ (histories_bounded st -> histories_bounded st').
Proof.
  intros Hm Hp Hc sid full st'. subst st'.
  rewrite (chat_completed w body st prompt text Hm Hp Hc).
  cbn [fst snd]. fold sid. fold full.
  assert (Hh : history (set_histories st (<[sid := limit_history full]>
                 (conversation_histories st))) sid = limit_history full).
  { unfold history. cbn [conversation_histories set_histories].
    now rewrite lookup_insert_eq. }
  rewrite Hh. split; [reflexivity|].
  split; [apply length_limit_history|].
  unfold limit_history, history_limit. split; [|split; [|split]].
  - intros Hle. destruct (Nat.ltb_spec (Z.to_nat 10000) (String.length full)); [lia | reflexivity].
  - intros Hlt. destruct (Nat.ltb_spec (Z.to_nat 10000) (String.length full)); [|lia].
    split; [reflexivity|]. split; [rewrite length_str_suffix; lia|].
    apply str_suffix_is_suffix.
  - intros sid' Hne. cbn [conversation_histories set_histories].
    now rewrite lookup_insert_ne.
  - intros Hb sid' h. cbn [conversation_histories set_histories].
    destruct (decide (sid = sid')) as [<- | Hne].
    + rewrite lookup_insert_eq. intros [= <-].
      apply (length_limit_history full).
    + rewrite lookup_insert_ne by exact Hne. apply Hb.
Qed.

Lemma history_truncated_after_turn_witness :
  let body := MkBody (Some long_message) (Some "u1") in
  let w := answering a_moment in
  let full := (history cs101_state (session_of body) ++ nl ++ long_prompt)
              ++ " Sure." in
  build_prompt w cs101_state (message_of body) = Ok long_prompt
  /\ (Z.to_nat 10000 < String.length full)%nat
  /\ fst (chat w body cs101_state) = MkResponse 200 [("response", JStr "Sure.")]
  /\ history (snd (chat w body cs101_state)) (session_of body)
     = str_suffix (Z.to_nat 10000) full
  /\ String.length (history (snd (chat w body cs101_state)) (session_of body))
     = Z.to_nat 10000.
Proof.
  intros body w full.
  assert (Hp : build_prompt w cs101_state (message_of body) = Ok long_prompt)
    by (vm_compute; reflexivity).
  assert (Hlong : (Z.to_nat 10000 < String.length full)%nat)
    by (apply Nat.ltb_lt; vm_compute; reflexivity).
  destruct (history_truncated_after_turn w body cs101_state long_prompt " Sure. ")
    as (Hr & _ & _ & Hcut & _).
  - apply String.eqb_neq. vm_compute. reflexivity.
  - exact Hp.
  - reflexivity.
  - destruct (Hcut Hlong) as (Hs & Hl & _).
    split; [exact Hp|]. split; [exact Hlong|]. split; [exact Hr|].
    split; [exact Hs | exact Hl].
Defined.

(** The claim C7 as stated fails: session A sends a message of 10,001
    characters and the model call raises; session B then completes a turn.
    After this completed turn the stored history of A is longer than 10,000
    characters. *)
Lemma history_truncated_counterexample :
  let stA := snd (chat (failing a_moment) (MkBody (Some long_message) (Some "A"))
                    cs101_state) in
  let r := chat (answering a_moment) (MkBody (Some "hi") (Some "B")) stA in
  status (fst r) = 200%nat
  /\ (Z.to_nat 10000 <? String.length (history (snd r) "A"))%nat = true.
Proof.
  split; vm_compute; reflexivity.
Qed.

(** C8. Resetting always answers with the success body and never creates or
    fails on an unknown session; afterwards the history of the session is
    empty and all else is as before; the next message of that session is
    handled exactly as that of a session never seen, and the model receives
    a newline and the prompt of that message, no earlier turn. *)
Theorem reset_then_fresh {L : Libs} (w : world) (rb body : post_body) (st : state) :
  let sid := session_of rb in
  let st' := snd (reset_chat rb st) in
  fst (reset_chat rb st)
  = MkResponse 200 [("status", JStr "Conversation reset successfully")]
  /\ dict_lookup "error" (payload (fst (reset_chat rb st))) = None
  /\ history st' sid = ""
  /\ (conversation_histories st !! sid = None -> st' = st)
  /\ (forall sid', sid' <> sid ->
        conversation_histories st' !! sid' = conversation_histories st !! sid')
  /\ same_corpus st st'
  /\ (session_of body = sid -> message_of body <> "" ->
        chat w body st' = chat w body (forget sid st))
  /\ (session_of body = sid -> message_of body <> "" ->
        forall prompt text,
          build_prompt w st (message_of body) = Ok prompt ->
          call_model w st (nl ++ prompt) = Ok text ->
          chat w body st'
          = (MkResponse 200 [("response", JStr (strip text))],
             set_histories st
               (<[sid := limit_history ((nl ++ prompt) ++ " " ++ strip text)]>
                  (conversation_histories st)))).
Proof.
  intros sid st'.
  assert (Hst' : st' = match conversation_histories st !! sid with
                       | Some _ => set_histories st (<[sid := ""]> (conversation_histories st))
                       | None => st
                       end) by reflexivity.
  assert (Hempty : history st' sid = "").
  { rewrite Hst'. unfold history.
    destruct (conversation_histories st !! sid) eqn:Hl.
    - cbn [conversation_histories set_histories]. now rewrite lookup_insert_eq.
    - now rewrite Hl. }
  split; [reflexivity|]. split; [reflexivity|]. split; [exact Hempty|].
  split; [intros Hl; now rewrite Hst', Hl|].
  split.
  { intros sid' Hne. rewrite Hst'.
    destruct (conversation_histories st !! sid); [|reflexivity].
    cbn [conversation_histories set_histories]. now rewrite lookup_insert_ne. }
  split; [apply reset_same_corpus|].
  split.
  - intros Hsid Hm. unfold chat. fold (message_of body). fold (session_of body).
    apply String.eqb_neq in Hm. rewrite Hm, Hsid.
    rewrite Hst'. unfold forget.
    destruct (conversation_histories st !! sid) as [h|] eqn:Hl.
    + cbn [conversation_histories set_histories].
      rewrite lookup_insert_eq, lookup_delete_eq.
      rewrite set_histories_twice, insert_delete_eq. reflexivity.
    + rewrite Hl. cbn [conversation_histories set_histories].
      rewrite lookup_delete_eq. rewrite set_histories_twice.
      rewrite insert_delete_eq. reflexivity.
  - intros Hsid Hm prompt text Hp Hc.
    assert (Hsame : same_corpus st st') by apply reset_same_corpus.
    assert (Hp' : build_prompt w st' (message_of body) = Ok prompt).
    { rewrite Hst'. destruct (conversation_histories st !! sid); exact Hp. }
    assert (Hc' : call_model w st' (history st' (session_of body) ++ nl ++ prompt)
                  = Ok text).
    { rewrite Hsid, Hempty. rewrite Hst'.
      destruct (conversation_histories st !! sid); exact Hc. }
    rewrite (chat_completed w body st' prompt text Hm Hp' Hc').
    rewrite Hsid, Hempty. f_equal. rewrite Hst'.
    destruct (conversation_histories st !! sid) as [h|] eqn:Hl; [|reflexivity].
    rewrite set_histories_twice. cbn [conversation_histories set_histories].
    now rewrite insert_insert_eq.
Qed.

Lemma reset_then_fresh_witness :
  let body := MkBody (Some "When is HW1 due?") (Some "u1") in
  let w := answering a_moment in
  let st := snd (chat w body cs101_state) in
  let st' := snd (reset_chat (MkBody None (Some "u1")) st) in
  chat w body st' = chat w body (forget "u1" st)
  /\ history (snd (chat w body st')) "u1" = (nl ++ hw1_prompt) ++ " Sure.".
Proof.
  intros body w st st'.
  destruct (reset_then_fresh w (MkBody None (Some "u1")) body st)
    as (_ & _ & _ & _ & _ & _ & Hfresh & Hnext).
  split.
  - apply Hfresh; [reflexivity | discriminate].
  - fold st' in Hnext.
    rewrite (Hnext eq_refl ltac:(discriminate) hw1_prompt " Sure. ");
      [| vm_compute; reflexivity | reflexivity].
    unfold history. cbn [snd conversation_histories set_histories].
    rewrite lookup_insert_eq. cbn [default from_option id].
    unfold limit_history.
    replace (history_limit <? _)%nat with false; [reflexivity|].
    symmetry. vm_compute. reflexivity.
Defined.

(** ** The summary *)

(** For a course whose assignments and quizzes are lists, the summary
    counts them. *)
Lemma course_summary_listed c d assignments quizzes :
  listed_course c d assignments quizzes ->
  course_summary c
  = Ok (JDict [("name", dict_get "name" (JStr "Unknown Course") d);
               ("assignments_count", JInt (Z.of_nat (List.length assignments)));
               ("quizzes_count", JInt (Z.of_nat (List.length quizzes)))]).
Proof.
  intros [d' assignments' quizzes' Ha Hq]. unfold course_summary. simpl.
  rewrite Ha, Hq. reflexivity.
Qed.

Lemma total_len_listed (cs : list json) (items : list (list json * list json)) :
  Forall2 (fun c p => exists d, listed_course c d (fst p) (snd p)) cs items ->
  total_len "assignments" cs
  = Ok (foldr (fun p t => List.length (fst p) + t)%nat O items)
  /\ total_len "quizzes" cs
     = Ok (foldr (fun p t => List.length (snd p) + t)%nat O items).
Proof.
  induction 1 as [|c p cs items [d Hc] _ [IHa IHq]]; [split; reflexivity|].
  inversion Hc as [d' assignments quizzes Ha Hq]; subst.
  simpl. rewrite Ha, Hq, IHa, IHq. split; reflexivity.
Qed.

(** C9. The summary reports the length of whatever is stored under
    "assignments" and "quizzes". For the dataset of [broken_course], whose
    assignments could not be retrieved, the fetcher stores the message of
    the failure (34 characters) in place of the list, and the summary
    reports 34 assignments for the course and in total, where none is
    recorded. *)
Theorem summary_counts_characters_of_error :
  scrape (L := canvas_libs) ada [broken_course] = Ok broken_dataset
  /\ startup (L := canvas_libs) broken_dataset true = Ok broken_state
  /\ get_data_summary broken_state
     = MkResponse 200
         [("user", JDict [("name", JStr "Ada"); ("id", JInt 7)]);
          ("courses",
           JList [JDict [("name", JStr "PHYS211");
                         ("assignments_count", JInt 34);
                         ("quizzes_count", JInt 0)]]);
          ("total_assignments", JInt 34);
          ("total_quizzes", JInt 0)].
Proof.
  split; [vm_compute; reflexivity|]. split.
  - unfold broken_state, started, broken_documents, broken_metadata.
    apply startup_flattened. vm_compute. reflexivity.
  - vm_compute. reflexivity.
Qed.

(** ** The course filter *)

Section FilterFacts.
Context {L : Libs}.
Variable user : User.

(** Unless the start parses without a UTC offset, the test at the head of
    the loop skips exactly the courses that start before the cutoff. *)
Lemma skip_course_spec (course : Course) :
  ~ zoneless_start course ->
  skip_course course = Ok (starts_before_cutoff course).
Proof.
  unfold zoneless_start, starts_before_cutoff, parsed_start, skip_course.
  intros Hz. destruct (c_start_at course) as [v|]; [|reflexivity].
  destruct v as [| b | z | f | s | l | d].
  - reflexivity.
  - now destruct b.
  - cbn [truthy]. now destruct (negb _).
  - cbn [truthy]. now destruct (negb _).
  - cbn [truthy]. destruct (String.eqb s ""); cbn [negb]; [reflexivity|].
    destruct (fromisoformat _) as [[n [z|]]|]; try reflexivity.
    exfalso. apply Hz. now exists n.
  - now destruct l.
  - now destruct d.
Qed.

Lemma collect_filter (courses : list Course) (out : list json) :
  Forall (fun c => ~ zoneless_start c) courses ->
  collect user courses out
  = Ok (out ++ map (course_data user)
                 (List.filter (fun c => negb (starts_before_cutoff c)) courses))%list.
Proof.
  intros H. revert out. induction H as [|c courses Hc _ IH]; intros out.
  - simpl. now rewrite app_nil_r.
  - cbn [collect]. rewrite (skip_course_spec c Hc). cbn [bind List.filter].
    destruct (starts_before_cutoff c); cbn [negb].
    + apply IH.
    + rewrite IH. cbn [map]. now rewrite <- List.app_assoc.
Qed.

(** One start without a UTC offset ends the script before anything is
    written, whatever the other courses are. *)
Lemma collect_zoneless (before after : list Course) (c : Course) (out : list json) :
  Forall (fun c => ~ zoneless_start c) before ->
  zoneless_start c ->
  collect user (before ++ c :: after) out
  = Raise "can't compare offset-naive and offset-aware datetimes".
Proof.
  intros H [n Hn]. revert out. induction H as [|b before Hb _ IH]; intros out.
  - cbn [app collect]. unfold skip_course. unfold parsed_start in Hn.
    destruct (c_start_at c) as [[| | | | s | |]|]; try discriminate.
    simpl. destruct (String.eqb s ""); [discriminate|]. simpl.
    now rewrite Hn.
  - cbn [app collect]. rewrite (skip_course_spec b Hb). cbn [bind].
    destruct (starts_before_cutoff b); apply IH.
Qed.

End FilterFacts.

(** C4. The filter keeps and skips the courses as the claim says as long as
    no start parses to a date without UTC offset. With the course
    [zoneless_course] (start "2025-06-01T00:00:00") in the list, the
    comparison with the cutoff raises outside the [try], and no dataset is
    written: the course without start that precedes it is not in any
    output. *)
Theorem zoneless_start_aborts_scrape :
  parsed_start (L := canvas_libs) zoneless_course
  = Some (MkDatetime (MkNaive 2025 6 1 0 0 0 0) None)
  /\ skip_course (L := canvas_libs) undated_course = Ok false
  /\ scrape (L := canvas_libs) ada [undated_course; zoneless_course]
     = Raise "can't compare offset-naive and offset-aware datetimes"
  /\ scrape (L := canvas_libs) ada [old_course; undated_course; cs101]
     = Ok (JDict [("user", JDict [("id", JInt 7); ("name", JStr "Ada");
                                  ("sortable_name", JNull);
                                  ("login_id", JStr "ada@example.edu")]);
                  ("courses", JList [course_data ada undated_course;
                                     course_data ada cs101])]).
Proof.
  repeat split; vm_compute; reflexivity.
Qed.

(** * Further properties of the fetcher, the flattener and the service *)

(** ** The loop of the fetcher *)

Section FetcherFacts.
Context {L : Libs}.
Variable user : User.

Lemma collect_kept (courses : list Course) (out res : list json) :
  collect user courses out = Ok res ->
  res = (out ++ map (course_data user) (List.filter is_kept courses))%list.
Proof.
  revert out res. induction courses as [|c courses IH]; intros out res H.
  - simpl in H. injection H as <-. simpl. now rewrite app_nil_r.
  - cbn [collect] in H. cbn [List.filter]. unfold is_kept at 1.
    destruct (skip_course c) as [[|]|e]; cbn [bind] in H; [| |discriminate].
    + now apply IH.
    + rewrite (IH _ _ H). cbn [map]. now rewrite <- List.app_assoc.
Qed.

Lemma collect_raises (courses : list Course) (out : list json) :
  Exists zoneless_start courses ->
  collect user courses out
  = Raise "can't compare offset-naive and offset-aware datetimes".
Proof.
  intros H. revert out. induction H as [c rest Hc | c rest _ IH]; intros out.
  - exact (collect_zoneless user [] rest c out (List.Forall_nil _) Hc).
  - cbn [collect].
    destruct (skip_course c) as [[|]|e] eqn:Hs; cbn [bind]; try apply IH.
    unfold skip_course in Hs.
    destruct (c_start_at c) as [v|]; [|discriminate].
    destruct (truthy v); [|discriminate].
    destruct (match v with JStr s => fromisoformat _ | _ => None end)
      as [[n [z|]]|]; try discriminate.
    now injection Hs as <-.
Qed.

(** A record of the fetcher can be iterated over by the flattener. *)
Lemma course_data_walkable (course : Course) : walkable (course_data user course).
Proof.
  unfold walkable, course_data. eexists. 
  exists (section_items (assignments_data course)),
         (section_items (quizzes_data course)).
  split; [reflexivity|]. unfold dict_get. cbn [dict_lookup String.eqb Ascii.eqb].
  simpl. unfold section_items, assignments_data, quizzes_data, section.
  destruct (get_assignments course), (get_quizzes course); split; reflexivity.
Qed.

(** What the flattener and the summary read in a record of the fetcher. *)
Lemma course_data_fields (course : Course) :
  exists d,
    course_data user course = JDict d
    /\ dict_get "name" (JStr "Unknown Course") d
       = default (JStr "Unknown Course") (c_name course)
    /\ dict_get "course_code" (JStr "No code") d
       = getattr_none (c_course_code course)
    /\ dict_get "description" JNull d = getattr_none (c_description course)
    /\ dict_get "assignments" (JList []) d = assignments_data course
    /\ dict_get "quizzes" (JList []) d = quizzes_data course.
Proof. eexists. repeat split; reflexivity. Qed.

End FetcherFacts.

(** X1. When no course has a start that parses to a date without UTC offset,
    the script writes a dataset with the record of the user and, in their
    order, the records of exactly the courses that do not start before the
    cutoff. *)
Theorem scrape_keeps_courses {L : Libs} (user : User) (courses : list Course) :
  Forall (fun c => ~ zoneless_start c) courses ->
  scrape user courses
  = Ok (JDict
          [("user",
            JDict [("id", JInt (u_id user)); ("name", u_name user);
                   ("sortable_name", getattr_none (u_sortable_name user));
                   ("login_id", getattr_none (u_login_id user))]);
           ("courses",
            JList (map (course_data user)
                     (List.filter (fun c => negb (starts_before_cutoff c))
                        courses)))]).
Proof.
  intros H. unfold scrape. rewrite (collect_filter user courses [] H).
  reflexivity.
Qed.

Lemma scrape_keeps_courses_witness :
  Forall (fun c => ~ zoneless_start (L := canvas_libs) c)
    [old_course; undated_course; cs101]
  /\ scrape (L := canvas_libs) ada [old_course; undated_course; cs101]
     = Ok (JDict
             [("user",
               JDict [("id", JInt 7); ("name", JStr "Ada");
                      ("sortable_name", JNull);
                      ("login_id", JStr "ada@example.edu")]);
              ("courses",
               JList [course_data ada undated_course; course_data ada cs101])]).
Proof.
  assert (H : Forall (fun c => ~ zoneless_start (L := canvas_libs) c)
                [old_course; undated_course; cs101]).
  { repeat constructor; intros [n Hn]; vm_compute in Hn; discriminate Hn. }
  split; [exact H|].
  exact (scrape_keeps_courses ada [old_course; undated_course; cs101] H).
Defined.

(** X2. One course whose start parses to a date without UTC offset, at any
    place of the list, ends the script with the TypeError of the comparison:
    nothing is written for any course. *)
Theorem scrape_aborts_on_zoneless_start {L : Libs} (user : User)
    (courses : list Course) :
  Exists zoneless_start courses ->
  scrape user courses
  = Raise "can't compare offset-naive and offset-aware datetimes".
Proof.
  intros H. unfold scrape. now rewrite (collect_raises user courses [] H).
Qed.

Lemma scrape_aborts_on_zoneless_start_witness :
  Exists (zoneless_start (L := canvas_libs)) [cs101; zoneless_course; old_course]
  /\ scrape (L := canvas_libs) ada [cs101; zoneless_course; old_course]
     = Raise "can't compare offset-naive and offset-aware datetimes".
Proof.
  assert (H : Exists (zoneless_start (L := canvas_libs))
                [cs101; zoneless_course; old_course]).
  { apply Exists_cons_tl, Exists_cons_hd.
    exists (MkNaive 2025 6 1 0 0 0 0). vm_compute. reflexivity. }
  split; [exact H|].
  exact (scrape_aborts_on_zoneless_start ada _ H).
Defined.

(** ** Datasets with failed sections *)

Lemma length_chars (s : string) : List.length (chars s) = String.length s.
Proof. induction s as [|c s IH]; simpl; [reflexivity | now rewrite IH]. Qed.

Section WalkableFacts.
Context {L : Libs}.

Lemma process_walkable (a : acc) (c : json) :
  walkable c ->
  process_course a c
  = Ok ((fst a ++ record_documents c)%list, (snd a ++ record_metadata c)%list).
Proof.
  intros (d & items & quizzes & -> & Ha & Hq).
  unfold process_course, record_documents, record_metadata, section_items.
  cbn [py_get bind]. rewrite Ha, Hq. cbn [bind].
  rewrite fold_add_quiz, fold_add_assignment.
  unfold append, course_documents, course_metadata, course_overview.
  cbn [fst snd]. f_equal. f_equal; rewrite <- !List.app_assoc; reflexivity.
Qed.

Lemma process_courses_walkable (cs : list json) (a : acc) :
  Forall walkable cs ->
  process_courses cs a
  = Ok ((fst a ++ flat_map record_documents cs)%list,
        (snd a ++ flat_map record_metadata cs)%list).
Proof.
  intros H. revert a. induction H as [|c cs Hc _ IH]; intros a.
  - simpl. rewrite !app_nil_r. now destruct a.
  - cbn [process_courses flat_map]. rewrite (process_walkable a c Hc).
    cbn [bind]. rewrite IH. cbn [fst snd]. now rewrite <- !List.app_assoc.
Qed.

Lemma record_lengths (c : json) :
  walkable c ->
  List.length (record_metadata c) = List.length (record_documents c)
  /\ (1 <= List.length (record_documents c))%nat.
Proof.
  intros (d & items & quizzes & -> & _ & _).
  unfold record_documents, record_metadata, course_documents, course_metadata.
  cbn [List.length]. rewrite !length_app, !length_map. lia.
Qed.

Lemma flat_lengths (cs : list json) :
  Forall walkable cs ->
  List.length (flat_map record_metadata cs)
  = List.length (flat_map record_documents cs)
  /\ (List.length cs <= List.length (flat_map record_documents cs))%nat.
Proof.
  induction 1 as [|c cs Hc _ [IH1 IH2]]; [split; reflexivity|].
  cbn [flat_map List.length]. rewrite !length_app.
  destruct (record_lengths c Hc). lia.
Qed.

Lemma course_summary_walkable (c : json) :
  walkable c -> course_summary c = Ok (summary_entry c).
Proof.
  intros (d & items & quizzes & -> & Ha & Hq).
  unfold course_summary, summary_entry, section_len. cbn [py_get bind].
  destruct (dict_get "assignments" (JList []) d); try discriminate Ha;
    destruct (dict_get "quizzes" (JList []) d); try discriminate Hq;
    reflexivity.
Qed.

Lemma mapM_course_summary (cs : list json) :
  Forall walkable cs -> mapM course_summary cs = Ok (map summary_entry cs).
Proof.
  induction 1 as [|c cs Hc _ IH]; [reflexivity|].
  cbn [mapM map]. now rewrite (course_summary_walkable c Hc), IH.
Qed.

Lemma total_len_walkable (key : string) (cs : list json) :
  key = "assignments" \/ key = "quizzes" ->
  Forall walkable cs -> total_len key cs = Ok (total_of key cs).
Proof.
  intros Hk. induction 1 as [|c cs Hc _ IH]; [reflexivity|].
  destruct Hc as (d & items & quizzes & -> & Ha & Hq).
  cbn [total_len total_of foldr py_get bind]. fold (total_of key cs).
  rewrite IH. unfold section_len.
  destruct Hk as [-> | ->].
  - destruct (dict_get "assignments" (JList []) d); try discriminate Ha;
      reflexivity.
  - destruct (dict_get "quizzes" (JList []) d); try discriminate Hq;
      reflexivity.
Qed.

End WalkableFacts.

Lemma dataset_courses (u : json) (cs : list json) :
  dict_get "courses" (JList []) [("user", u); ("courses", JList cs)] = JList cs.
Proof. reflexivity. Qed.

Lemma dataset_user (u : json) (cs : list json) :
  dict_get "user" (JDict []) [("user", u); ("courses", JList cs)] = u.
Proof. reflexivity. Qed.

(** X3. Every dataset the fetcher writes is flattened without an exception:
    the documents and the metadata are those of the records of the kept
    courses, in order, of the same number, and there is at least one
    document per kept course. *)
Theorem scraped_dataset_flattens {L : Libs} (user : User)
    (courses : list Course) (ds : json) :
  scrape user courses = Ok ds ->
  let cs := map (course_data user) (List.filter is_kept courses) in
  load_and_process_data ds
  = Ok (flat_map record_documents cs, flat_map record_metadata cs, ds)
  /\ List.length (flat_map record_metadata cs)
     = List.length (flat_map record_documents cs)
  /\ (List.length cs <= List.length (flat_map record_documents cs))%nat.
Proof.
  intros H cs. unfold scrape in H.
  destruct (collect user courses []) as [res|e] eqn:Hc; [|discriminate].
  cbn [bind] in H. injection H as <-.
  apply collect_kept in Hc. cbn [app] in Hc. subst res. fold cs.
  assert (Hw : Forall walkable cs).
  { subst cs. apply List.Forall_forall. intros c Hin.
    apply in_map_iff in Hin. destruct Hin as (x & <- & _).
    apply course_data_walkable. }
  split; [|exact (flat_lengths cs Hw)].
  unfold load_and_process_data. cbn [py_get bind].
  rewrite dataset_courses. cbn [py_iter bind].
  now rewrite (process_courses_walkable cs ([], []) Hw).
Qed.

Lemma scraped_dataset_flattens_witness :
  scrape (L := canvas_libs) ada [broken_course] = Ok broken_dataset
  /\ load_and_process_data (L := canvas_libs) broken_dataset
     = Ok (flat_map (record_documents (L := canvas_libs))
             [course_data ada broken_course],
           flat_map (record_metadata (L := canvas_libs))
             [course_data ada broken_course],
           broken_dataset).
Proof.
  assert (H : scrape (L := canvas_libs) ada [broken_course] = Ok broken_dataset)
    by (vm_compute; reflexivity).
  split; [exact H|].
  exact (proj1 (scraped_dataset_flattens ada [broken_course] broken_dataset H)).
Defined.

(** X4. When the assignments of a course could not be retrieved, the
    flattener iterates over the error text stored in their place: after the
    overview of the course it emits one assignment document per character
    of "Error retrieving assignments: <message>", with that character as the
    name, "No due date", and an empty description and score. *)
Theorem failed_assignments_one_document_per_character {L : Libs} (user : User)
    (course : Course) (e : string) :
  get_assignments course = Raise e ->
  let name := default (JStr "Unknown Course") (c_name course) in
  let text := "Error retrieving assignments: " ++ e in
  record_documents (course_data user course)
  = (course_doc name (getattr_none (c_course_code course))
       (getattr_none (c_description course))
     :: map (fun ch => assign_doc name (bare_item (JStr ch))) (chars text)
     ++ map (fun q => quiz_doc name (quiz_item q))
          (section_items (quizzes_data course)))%list
  /\ List.length (record_documents (course_data user course))
     = (1 + String.length text
        + List.length (section_items (quizzes_data course)))%nat.
Proof.
  intros He name text.
  assert (Hdocs : record_documents (course_data user course)
    = (course_doc name (getattr_none (c_course_code course))
         (getattr_none (c_description course))
       :: map (fun ch => assign_doc name (bare_item (JStr ch))) (chars text)
       ++ map (fun q => quiz_doc name (quiz_item q))
            (section_items (quizzes_data course)))%list).
  { destruct (course_data_fields user course)
      as (d & -> & Hn & Hcode & Hdesc & Ha & Hq).
    unfold record_documents, course_documents, course_overview.
    rewrite Hn, Hcode, Hdesc, Ha, Hq. fold name.
    unfold assignments_data. rewrite He. cbn [section bind].
    unfold section_items at 1. cbn [py_iter]. rewrite map_map. reflexivity. }
  split; [exact Hdocs|].
  rewrite Hdocs. cbn [List.length]. rewrite length_app, !length_map, length_chars.
  lia.
Qed.

Lemma failed_assignments_one_document_per_character_witness :
  get_assignments broken_course = Raise "boom"
  /\ List.length (record_documents (L := canvas_libs) (course_data ada broken_course))
     = 35%nat.
Proof.
  split; [reflexivity|].
  rewrite (proj2 (failed_assignments_one_document_per_character
                    (L := canvas_libs) ada broken_course "boom" eq_refl)).
  vm_compute. reflexivity.
Defined.

(** X5. For a dataset whose user is a record and whose courses are records
    with lists, strings or dicts under "assignments" and "quizzes", the
    summary answers 200 with the name and the identifier of the user, one
    entry per course, in order, with the lengths of what is stored, and the
    sums of those lengths as totals. *)
Theorem summary_of_walkable_dataset {L : Libs} (st : state)
    (data u : pydict) (cs : list json) :
  original_data st = JDict data ->
  dict_get "courses" (JList []) data = JList cs ->
  dict_get "user" (JDict []) data = JDict u ->
  Forall walkable cs ->
  get_data_summary st
  = MkResponse 200
      [("user", JDict [("name", dict_get "name" (JStr "Student") u);
                       ("id", dict_get "id" (JStr "Unknown") u)]);
       ("courses", JList (map summary_entry cs));
       ("total_assignments", JInt (Z.of_nat (total_of "assignments" cs)));
       ("total_quizzes", JInt (Z.of_nat (total_of "quizzes" cs)))].
Proof.
  intros Hd Hc Hu Hw. unfold get_data_summary, summary. rewrite Hd.
  cbn [py_get bind]. rewrite Hc, Hu. cbn [py_get py_iter bind].
  rewrite (mapM_course_summary cs Hw). cbn [bind].
  rewrite (total_len_walkable "assignments" cs (or_introl eq_refl) Hw).
  rewrite (total_len_walkable "quizzes" cs (or_intror eq_refl) Hw).
  reflexivity.
Qed.

Lemma summary_of_walkable_dataset_witness :
  get_data_summary cs101_state
  = MkResponse 200
      [("user", JDict [("name", JStr "Ada"); ("id", JInt 7)]);
       ("courses",
        JList [JDict [("name", JStr "CS101"); ("assignments_count", JInt 2);
                      ("quizzes_count", JInt 1)]]);
       ("total_assignments", JInt 2);
       ("total_quizzes", JInt 1)].
Proof.
  unfold cs101_state, started, cs101_dataset.
  lazymatch goal with
  | |- get_data_summary (MkState ?a ?b (JDict ?data) ?c ?e ?f) = _ =>
      lazymatch eval vm_compute in
        (dict_get "courses" (JList []) data, dict_get "user" (JDict []) data) with
      | (JList ?cs, JDict ?u) =>
          refine (summary_of_walkable_dataset (MkState a b (JDict data) c e f)
                    data u cs eq_refl eq_refl eq_refl _)
      end
  end.
  repeat constructor.
  eexists. eexists. eexists. split; [reflexivity|]. split; reflexivity.
Defined.

(** X6. The summary of a dataset the fetcher wrote never fails: it names the
    user of the fetch and has one entry per kept course; for a course whose
    assignments and quizzes were retrieved the entry counts them. *)
Theorem scraped_dataset_summarises {L : Libs} (user : User)
    (courses : list Course) (ds : json) :
  scrape user courses = Ok ds ->
  let cs := map (course_data user) (List.filter is_kept courses) in
  summary ds
  = Ok [("user", JDict [("name", u_name user); ("id", JInt (u_id user))]);
        ("courses", JList (map summary_entry cs));
        ("total_assignments", JInt (Z.of_nat (total_of "assignments" cs)));
        ("total_quizzes", JInt (Z.of_nat (total_of "quizzes" cs)))]
  /\ (forall course assignments quizzes,
        get_assignments course = Ok assignments ->
        get_quizzes course = Ok quizzes ->
        summary_entry (course_data user course)
        = JDict [("name", default (JStr "Unknown Course") (c_name course));
                 ("assignments_count", JInt (Z.of_nat (List.length assignments)));
                 ("quizzes_count", JInt (Z.of_nat (List.length quizzes)))]).
Proof.
  intros H cs. split.
  - unfold scrape in H.
    destruct (collect user courses []) as [res|e] eqn:Hc; [|discriminate].
    cbn [bind] in H. injection H as <-.
    apply collect_kept in Hc. cbn [app] in Hc. subst res. fold cs.
    assert (Hw : Forall walkable cs).
    { subst cs. apply List.Forall_forall. intros c Hin.
      apply in_map_iff in Hin. destruct Hin as (x & <- & _).
      apply course_data_walkable. }
    unfold summary. cbn [py_get bind].
    rewrite dataset_courses, dataset_user. cbn [py_get py_iter bind].
    rewrite (mapM_course_summary cs Hw). cbn [bind].
    rewrite (total_len_walkable "assignments" cs (or_introl eq_refl) Hw).
    rewrite (total_len_walkable "quizzes" cs (or_intror eq_refl) Hw).
    reflexivity.
  - intros course assignments quizzes Ha Hq.
    destruct (course_data_fields user course)
      as (d & -> & Hn & _ & _ & Has & Hqs).
    unfold summary_entry. rewrite Hn, Has, Hqs.
    unfold assignments_data, quizzes_data.
    rewrite Ha, Hq. cbn [section bind section_len py_len].
    now rewrite !length_map.
Qed.

Lemma scraped_dataset_summarises_witness :
  scrape (L := canvas_libs) ada [old_course; cs101] = Ok cs101_dataset
  /\ summary cs101_dataset
     = Ok [("user", JDict [("name", JStr "Ada"); ("id", JInt 7)]);
           ("courses",
            JList [JDict [("name", JStr "CS101"); ("assignments_count", JInt 2);
                          ("quizzes_count", JInt 1)]]);
           ("total_assignments", JInt 2);
           ("total_quizzes", JInt 1)].
Proof.
  assert (H : scrape (L := canvas_libs) ada [old_course; cs101] = Ok cs101_dataset)
    by (vm_compute; reflexivity).
  split; [exact H|].
  exact (proj1 (scraped_dataset_summarises ada [old_course; cs101] cs101_dataset H)).
Defined.

(** ** The sessions of the service *)

Section SessionFacts.
Context {L : Libs}.

Lemma chat_empty_message (w : world) (body : post_body) (st : state) :
  message_of body = "" ->
  chat w body st = (error_response 400 "No message provided", st).
Proof.
  unfold message_of. intros Hm. unfold chat. now rewrite Hm.
Qed.

(** A chat turn that fails before the prompt is complete. *)
Lemma chat_no_prompt (w : world) (body : post_body) (st : state) (e : string) :
  message_of body <> "" ->
  build_prompt w st (message_of body) = Raise e ->
  chat w body st
  = (error_response 500 e,
     set_histories st
       (<[session_of body := history st (session_of body)]>
          (conversation_histories st))).
Proof.
  unfold message_of, session_of. intros Hm Hp. unfold chat.
  apply String.eqb_neq in Hm. rewrite Hm. unfold history.
  destruct (conversation_histories st !! default "default" (session_id body))
    as [h|] eqn:Hl.
  - rewrite Hp. cbn [default from_option id]. rewrite insert_id by exact Hl.
    now destruct st.
  - now rewrite build_prompt_set_histories, Hp.
Qed.

(** The three ways a chat turn with a message ends. *)
Lemma chat_outcomes (w : world) (body : post_body) (st : state) :
  message_of body <> "" ->
  exists r h,
    chat w body st
    = (r, set_histories st (<[session_of body := h]> (conversation_histories st)))
    /\ ((gemini_model st = true -> always_answers w ->
         (String.length (history st (session_of body)) <= history_limit)%nat ->
         (String.length h <= history_limit)%nat)).
Proof.
  intros Hm.
  destruct (build_prompt w st (message_of body)) as [prompt|e] eqn:Hp.
  - destruct (call_model w st (history st (session_of body) ++ nl ++ prompt))
      as [text|e] eqn:Hc.
    + eexists. eexists. split; [exact (chat_completed w body st prompt text Hm Hp Hc)|].
      intros _ _ _. apply length_limit_history.
    + eexists. eexists. split; [exact (chat_failed w body st prompt e Hm Hp Hc)|].
      intros Hg Ha _. unfold call_model in Hc. rewrite Hg in Hc.
      destruct (Ha (history st (session_of body) ++ nl ++ prompt)) as [t Ht].
      congruence.
  - eexists. eexists. split; [exact (chat_no_prompt w body st e Hm Hp)|].
    intros _ _ Hb. exact Hb.
Qed.

Lemma handle_keeps_sessions (r : request) (st : state) (sid : string) :
  is_Some (conversation_histories st !! sid) ->
  is_Some (conversation_histories (handle r st) !! sid).
Proof.
  intros Hs. destruct r as [w body | body | | now]; cbn [handle]; try exact Hs.
  - destruct (String.eqb_spec (message_of body) "") as [Hm | Hm].
    + now rewrite (chat_empty_message w body st Hm).
    + destruct (chat_outcomes w body st Hm) as (r & h & -> & _).
      cbn [snd conversation_histories set_histories].
      destruct (decide (session_of body = sid)) as [<- | Hne].
      * rewrite lookup_insert_eq. eauto.
      * now rewrite lookup_insert_ne.
  - unfold reset_chat. cbn [snd].
    destruct (conversation_histories st !! default "default" (session_id body))
      eqn:Hl; [|exact Hs].
    cbn [conversation_histories set_histories].
    destruct (decide (default "default" (session_id body) = sid)) as [<- | Hne].
    + rewrite lookup_insert_eq. eauto.
    + now rewrite lookup_insert_ne.
Qed.

Lemma handle_bounded (r : request) (st : state) :
  gemini_model st = true ->
  match r with PostChat w _ => always_answers w | _ => True end ->
  histories_bounded st -> histories_bounded (handle r st).
Proof.
  intros Hg Ha Hb. destruct r as [w body | body | | now]; cbn [handle]; try exact Hb.
  - destruct (String.eqb_spec (message_of body) "") as [Hm | Hm].
    + now rewrite (chat_empty_message w body st Hm).
    + destruct (chat_outcomes w body st Hm) as (r & h & -> & Hh).
      cbn [snd]. intros sid x. cbn [conversation_histories set_histories].
      destruct (decide (session_of body = sid)) as [<- | Hne].
      * rewrite lookup_insert_eq. intros [= <-]. apply Hh; [exact Hg | exact Ha |].
        unfold history.
        destruct (conversation_histories st !! session_of body) as [h0|] eqn:Hl.
        -- exact (Hb _ _ Hl).
        -- cbn. lia.
      * rewrite lookup_insert_ne by exact Hne. apply Hb.
  - unfold reset_chat. cbn [snd].
    destruct (conversation_histories st !! default "default" (session_id body))
      eqn:Hl; [|exact Hb].
    intros sid x. cbn [conversation_histories set_histories].
    destruct (decide (default "default" (session_id body) = sid)) as [<- | Hne].
    + rewrite lookup_insert_eq. intros [= <-]. cbn. lia.
    + rewrite lookup_insert_ne by exact Hne. apply Hb.
Qed.

End SessionFacts.

(** X7. Whatever its outcome, a chat request leaves the stored history of
    every session other than its own as it was, and the documents and the
    index untouched. *)
Theorem chat_touches_only_its_session {L : Libs} (w : world) (body : post_body)
    (st : state) (sid : string) :
  sid <> session_of body ->
  conversation_histories (snd (chat w body st)) !! sid
  = conversation_histories st !! sid
  /\ same_corpus st (snd (chat w body st)).
Proof.
  intros Hne. split; [|apply chat_same_corpus].
  destruct (String.eqb_spec (message_of body) "") as [Hm | Hm].
  - now rewrite (chat_empty_message w body st Hm).
  - destruct (chat_outcomes w body st Hm) as (r & h & -> & _).
    cbn [snd conversation_histories set_histories].
    now rewrite lookup_insert_ne.
Qed.

Lemma chat_touches_only_its_session_witness :
  let st := snd (chat (answering a_moment) (MkBody (Some "hi") (Some "A")) cs101_state) in
  let st' := snd (chat (failing a_moment) (MkBody (Some long_message) (Some "B")) st) in
  conversation_histories st' !! "A" = conversation_histories st !! "A".
Proof.
  intros st st'.
  refine (proj1 (chat_touches_only_its_session (failing a_moment)
                   (MkBody (Some long_message) (Some "B")) st "A" _)).
  discriminate.
Defined.

(** X8. A chat request without a message is refused with status 400 and
    changes nothing, not even creating its session. A request with a message
    leaves its session in the map whether or not the turn succeeds; when the
    prompt cannot be built the answer is the error with status 500 and the
    history of the session is the one before (empty for a new session). *)
Theorem chat_creates_session {L : Libs} (w : world) (body : post_body) (st : state) :
  (message_of body = "" ->
     chat w body st = (error_response 400 "No message provided", st))
  /\ (message_of body <> "" ->
        is_Some (conversation_histories (snd (chat w body st)) !! session_of body))
  /\ (forall e,
        message_of body <> "" ->
        build_prompt w st (message_of body) = Raise e ->
        fst (chat w body st) = error_response 500 e
        /\ conversation_histories (snd (chat w body st)) !! session_of body
           = Some (history st (session_of body))).
Proof.
  split; [apply chat_empty_message|]. split.
  - intros Hm. destruct (chat_outcomes w body st Hm) as (r & h & -> & _).
    cbn [snd conversation_histories set_histories].
    rewrite lookup_insert_eq. eauto.
  - intros e Hm Hp. rewrite (chat_no_prompt w body st e Hm Hp).
    cbn [fst snd conversation_histories set_histories].
    now rewrite lookup_insert_eq.
Qed.

Lemma chat_creates_session_witness :
  chat (answering a_moment) (MkBody None (Some "u1")) cs101_state
  = (error_response 400 "No message provided", cs101_state)
  /\ is_Some (conversation_histories
                (snd (chat (failing a_moment) (MkBody (Some "hi") (Some "u1"))
                        cs101_state)) !! "u1").
Proof.
  split.
  - apply (proj1 (chat_creates_session (answering a_moment)
                    (MkBody None (Some "u1")) cs101_state)).
    reflexivity.
  - apply (proj1 (proj2 (chat_creates_session (failing a_moment)
                           (MkBody (Some "hi") (Some "u1")) cs101_state))).
    discriminate.
Defined.

(** X9. A process started without an API key has no model: every chat
    message for which a prompt is built is answered with status 500 and the
    text of the AttributeError, and the prompt stays in the history of the
    session, which gets longer by the prompt and one character, without a
    limit. *)
Theorem no_api_key_every_turn_fails {L : Libs} (canvas_data : json)
    (st0 : state) (rs : list request) (w : world) (body : post_body)
    (prompt : string) :
  startup canvas_data false = Ok st0 ->
  let st := run rs st0 in
  message_of body <> "" ->
  build_prompt w st (message_of body) = Ok prompt ->
  fst (chat w body st)
  = error_response 500 "'NoneType' object has no attribute 'generate_content'"
  /\ String.length (history (snd (chat w body st)) (session_of body))
     = (String.length (history st (session_of body)) + 1
        + String.length prompt)%nat.
Proof.
  intros Hs st Hm Hp.
  assert (Hg : gemini_model st = false).
  { unfold st. destruct (run_same_corpus rs st0) as (_ & _ & _ & _ & Hgm).
    rewrite Hgm. unfold startup in Hs.
    destruct (load_and_process_data canvas_data); [|discriminate].
    cbn [bind] in Hs. destruct (build_faiss_index _); [|discriminate].
    cbn [bind] in Hs. now injection Hs as <-. }
  assert (Hc : call_model w st (history st (session_of body) ++ nl ++ prompt)
               = Raise "'NoneType' object has no attribute 'generate_content'").
  { unfold call_model. now rewrite Hg. }
  rewrite (chat_failed w body st prompt _ Hm Hp Hc).
  cbn [fst snd]. split; [reflexivity|].
  unfold history at 1. cbn [conversation_histories set_histories].
  rewrite lookup_insert_eq. cbn [default from_option id].
  rewrite !length_append. cbn. lia.
Qed.

Lemma no_api_key_every_turn_fails_witness :
  let body := MkBody (Some "When is HW1 due?") (Some "u1") in
  let st0 := set_gemini_model false cs101_state in
  startup (L := canvas_libs) cs101_dataset false = Ok st0
  /\ fst (chat (answering a_moment) body (run [] st0))
     = error_response 500 "'NoneType' object has no attribute 'generate_content'".
Proof.
  intros body st0.
  assert (Hs : startup (L := canvas_libs) cs101_dataset false = Ok st0).
  { unfold st0, set_gemini_model, cs101_state, started,
      cs101_documents, cs101_metadata.
    apply startup_flattened. vm_compute. reflexivity. }
  split; [exact Hs|].
  refine (proj1 (no_api_key_every_turn_fails cs101_dataset st0 []
                   (answering a_moment) body hw1_prompt Hs _ _)).
  - discriminate.
  - vm_compute. reflexivity.
Defined.

(** X10. No request removes a session: a session that has a stored history
    has one after any sequence of requests. *)
Theorem sessions_never_removed {L : Libs} (rs : list request) (st : state)
    (sid : string) :
  is_Some (conversation_histories st !! sid) ->
  is_Some (conversation_histories (run rs st) !! sid).
Proof.
  revert st. induction rs as [|r rs IH]; intros st Hs; [exact Hs|].
  cbn [run fold_left]. apply IH. now apply handle_keeps_sessions.
Qed.

Lemma sessions_never_removed_witness :
  let st := snd (chat (answering a_moment) (MkBody (Some "hi") (Some "A")) cs101_state) in
  is_Some (conversation_histories st !! "A")
  /\ is_Some (conversation_histories
                (run [PostResetChat (MkBody None (Some "A"));
                      PostChat (failing a_moment) (MkBody (Some "x") (Some "B"));
                      GetDataSummary] st) !! "A").
Proof.
  intros st.
  assert (H : is_Some (conversation_histories st !! "A")).
  { apply (proj1 (proj2 (chat_creates_session (answering a_moment)
                           (MkBody (Some "hi") (Some "A")) cs101_state))).
    discriminate. }
  split; [exact H|]. exact (sessions_never_removed _ st "A" H).
Defined.

(** X11. In a process started with an API key, as long as the hosted model
    answers every call, every stored history has at most 10,000 characters
    after any sequence of requests. *)
Theorem histories_bounded_when_model_answers {L : Libs} (canvas_data : json)
    (st0 : state) (rs : list request) :
  startup canvas_data true = Ok st0 ->
  answered rs ->
  forall sid h,
    conversation_histories (run rs st0) !! sid = Some h ->
    (String.length h <= Z.to_nat 10000)%nat.
Proof.
  intros Hs Ha.
  assert (Hg : gemini_model st0 = true).
  { unfold startup in Hs.
    destruct (load_and_process_data canvas_data); [|discriminate].
    cbn [bind] in Hs. destruct (build_faiss_index _); [|discriminate].
    cbn [bind] in Hs. now injection Hs as <-. }
  assert (Hb : histories_bounded st0).
  { destruct (startup_aligned _ _ _ Hs) as [_ He]. intros sid h.
    rewrite He, lookup_empty. discriminate. }
  clear Hs. change (histories_bounded (run rs st0)).
  revert st0 Hg Hb. induction Ha as [|r rs Hr _ IH]; intros st Hg Hb; [exact Hb|].
  cbn [run fold_left]. apply IH.
  - destruct (handle_same_corpus r st) as (_ & _ & _ & _ & Hgm).
    now rewrite Hgm.
  - now apply handle_bounded.
Qed.

Lemma histories_bounded_when_model_answers_witness :
  let rs := [PostChat (answering a_moment) (MkBody (Some long_message) (Some "A"));
             PostChat (answering a_moment) (MkBody (Some long_message) (Some "A"));
             PostResetChat (MkBody None (Some "B"))] in
  startup (L := canvas_libs) cs101_dataset true = Ok cs101_state
  /\ answered rs
  /\ forall sid h,
       conversation_histories (run rs cs101_state) !! sid = Some h ->
       (String.length h <= Z.to_nat 10000)%nat.
Proof.
  intros rs.
  assert (Ha : answered rs).
  { repeat constructor; intros h; eexists; reflexivity. }
  split; [exact cs101_startup|]. split; [exact Ha|].
  exact (histories_bounded_when_model_answers cs101_dataset cs101_state rs
           cs101_startup Ha).
Defined.

(** X12. Resetting a session twice is resetting it once, and a reset neither
    adds a session to the map nor takes one from it. *)
Theorem reset_chat_idempotent {L : Libs} (body : post_body) (st : state) :
  snd (reset_chat body (snd (reset_chat body st))) = snd (reset_chat body st)
  /\ forall sid,
       is_Some (conversation_histories (snd (reset_chat body st)) !! sid)
       <-> is_Some (conversation_histories st !! sid).
Proof.
  unfold reset_chat. cbn [snd].
  destruct (conversation_histories st !! default "default" (session_id body))
    as [h|] eqn:Hl.
  - split.
    + cbn [conversation_histories set_histories]. rewrite lookup_insert_eq.
      rewrite set_histories_twice. now rewrite insert_insert_eq.
    + intros sid. cbn [conversation_histories set_histories].
      destruct (decide (default "default" (session_id body) = sid)) as [<- | Hne].
      * rewrite lookup_insert_eq, Hl. split; eauto.
      * now rewrite lookup_insert_ne.
  - rewrite Hl. split; [reflexivity | tauto].
Qed.

(** ** Startup, health and retrieval *)

(** X13. In a started process, after any requests, a health check that
    answers reports status "ok" with the same number as the count of the
    documents and as the size of the index, and that number is at least
    one; it answers exactly when the zone table has an entry for the
    instant. *)
Theorem health_reports_equal_counts {L : Libs} (canvas_data : json)
    (api_key : bool) (st0 : state) (rs : list request) (now : Z) :
  startup canvas_data api_key = Ok st0 ->
  let n := Z.of_nat (List.length (documents st0)) in
  1 <= n
  /\ (forall e, fromutc USER_TIMEZONE now = Raise e ->
        health_check now (run rs st0) = Raise e)
  /\ (forall local, fromutc USER_TIMEZONE now = Ok local ->
        exists r,
          health_check now (run rs st0) = Ok r
          /\ status r = 200%nat
          /\ dict_lookup "status" (payload r) = Some (JStr "ok")
          /\ dict_lookup "documents_count" (payload r) = Some (JInt n)
          /\ dict_lookup "index_size" (payload r) = Some (JInt n)
          /\ dict_lookup "current_datetime" (payload r)
             = Some (JStr (strftime_due local))).
Proof.
  intros Hs n. apply startup_aligned in Hs. destruct Hs as [[Hxb Hne] _].
  destruct (run_same_corpus rs st0) as (Hd & _ & _ & Hi & _).
  split.
  { subst n. destruct (documents st0); [congruence | cbn [List.length]; lia]. }
  split.
  - intros e He. unfold health_check. now rewrite He.
  - intros local Hl. unfold health_check. rewrite Hl. cbn [bind].
    eexists. split; [reflexivity|]. cbn [status payload].
    rewrite Hd, Hi. unfold ntotal. rewrite Hxb, length_map.
    repeat split; reflexivity.
Qed.

Lemma health_reports_equal_counts_witness :
  startup (L := canvas_libs) cs101_dataset true = Ok cs101_state
  /\ exists r,
       health_check a_moment
         (run [PostChat (answering a_moment) (MkBody (Some "hi") None)] cs101_state)
       = Ok r
       /\ dict_lookup "documents_count" (payload r) = Some (JInt 4)
       /\ dict_lookup "index_size" (payload r) = Some (JInt 4)
       /\ dict_lookup "current_datetime" (payload r)
          = Some (JStr "2025-03-05 10:00 AM EST").
Proof.
  split; [exact cs101_startup|].
  destruct (health_reports_equal_counts cs101_dataset true cs101_state
              [PostChat (answering a_moment) (MkBody (Some "hi") None)]
              a_moment cs101_startup) as (_ & _ & H).
  destruct (H (MkNaive 2025 3 5 10 0 0 0, EST)) as (r & Hr & _ & _ & Hd & Hi & Ht).
  - vm_compute. reflexivity.
  - exists r. split; [exact Hr|]. split; [exact Hd|]. split; [exact Hi | exact Ht].
Defined.

(** X14. A dataset without courses cannot be served: the flattener returns
    no document and the construction of the index fails with the IndexError
    on the shape of the empty batch. A dataset with at least one course
    record that can be iterated over starts, with the documents of its
    records, the index over their encodings, and no session. *)
Theorem startup_needs_a_course {L : Libs} (data : pydict) (api_key : bool) :
  (dict_get "courses" (JList []) data = JList [] ->
     startup (JDict data) api_key = Raise "tuple index out of range")
  /\ (forall c cs,
        dict_get "courses" (JList []) data = JList (c :: cs) ->
        Forall walkable (c :: cs) ->
        startup (JDict data) api_key
        = Ok (MkState (flat_map record_documents (c :: cs))
                (flat_map record_metadata (c :: cs)) (JDict data)
                (MkIndex (map encode (flat_map record_documents (c :: cs))))
                api_key ∅)).
Proof.
  split.
  - intros Hc. unfold startup, load_and_process_data. cbn [py_get bind].
    rewrite Hc. reflexivity.
  - intros c cs Hc Hw.
    assert (Hl : load_and_process_data (JDict data)
                 = Ok (flat_map record_documents (c :: cs),
                       flat_map record_metadata (c :: cs), JDict data)).
    { unfold load_and_process_data. cbn [py_get bind]. rewrite Hc.
      cbn [py_iter bind].
      now rewrite (process_courses_walkable (c :: cs) ([], []) Hw). }
    unfold startup. rewrite Hl. cbn [bind fst snd].
    assert (Hne : exists doc docs, flat_map record_documents (c :: cs) = doc :: docs).
    { pose proof (proj2 (flat_lengths (c :: cs) Hw)) as Hlen.
      destruct (flat_map record_documents (c :: cs)) as [|doc docs];
        [cbn in Hlen; lia | eauto]. }
    destruct Hne as (doc & docs & ->). reflexivity.
Qed.

Lemma startup_needs_a_course_witness :
  startup (L := canvas_libs) (JDict [("user", JDict [("name", JStr "Ada")])]) true
  = Raise "tuple index out of range"
  /\ startup (L := canvas_libs)
       (JDict [("courses", JList [JDict [("name", JStr "CS101")]])]) false
     = Ok (MkState (L := canvas_libs)
             ["**Course:** CS101" ++ nl ++ "**Code:** No code" ++ nl]
             [JDict [("type", JStr "course"); ("course", JStr "CS101")]]
             (JDict [("courses", JList [JDict [("name", JStr "CS101")]])])
             (MkIndex (L := canvas_libs)
                ["**Course:** CS101" ++ nl ++ "**Code:** No code" ++ nl])
             false ∅).
Proof.
  split.
  - apply (proj1 (startup_needs_a_course (L := canvas_libs) _ true)).
    reflexivity.
  - refine (proj2 (startup_needs_a_course (L := canvas_libs)
                     [("courses", JList [JDict [("name", JStr "CS101")]])] false)
              (JDict [("name", JStr "CS101")]) [] eq_refl _).
    repeat constructor. exists [("name", JStr "CS101")], [], [].
    repeat split; reflexivity.
Defined.

Section RetrievalFacts.
Context {L : Libs}.

Lemma scored_labels_from (q : vec) (l : list vec) (k : nat) :
  map snd (imap (fun i x => (dist q x, Z.of_nat (k + i))) l)
  = map Z.of_nat (seq k (List.length l)).
Proof.
  revert k. induction l as [|x l IH]; intros k; [reflexivity|].
  cbn [imap map seq List.length snd]. rewrite Nat.add_0_r. f_equal.
  rewrite <- (IH (S k)). f_equal. apply imap_ext. intros i y _.
  cbn. f_equal. f_equal. lia.
Qed.

Lemma scored_labels (idx : IndexFlatL2) (q : vec) :
  map snd (scored idx q) = map Z.of_nat (seq 0 (ntotal idx)).
Proof. exact (scored_labels_from q (xb idx) 0). Qed.

(** The labels of a search are pairwise distinct. *)
Lemma search_ranked_NoDup (idx : IndexFlatL2) (q : vec) (k : nat) :
  NoDup (map snd (search_ranked idx q k)).
Proof.
  unfold search_ranked.
  change (map snd) with (fmap (M := list) (@snd N Z)). rewrite fmap_take.
  eapply sublist_NoDup; [|apply sublist_take].
  rewrite (merge_sort_Permutation by_dist (scored idx q)).
  change (fmap (M := list) (@snd N Z)) with (map (@snd N Z)).
  rewrite scored_labels.
  apply (NoDup_fmap_2 Z.of_nat). apply NoDup_seq.
Qed.

End RetrievalFacts.

(** X15. In a started process the positions a chat turn retrieves are
    pairwise distinct: no document enters the context twice. *)
Theorem retrieved_positions_distinct {L : Libs} (canvas_data : json)
    (api_key : bool) (st0 : state) (rs : list request) (q : vec) :
  startup canvas_data api_key = Ok st0 ->
  NoDup (chat_search (run rs st0) q).
Proof.
  intros Hs. apply startup_aligned in Hs. destruct Hs as [Hal _].
  destruct (aligned_same_corpus _ _ (run_same_corpus rs st0) Hal) as [Hxb _].
  unfold chat_search. rewrite search_labels.
  - apply search_ranked_NoDup.
  - unfold ntotal. rewrite Hxb, length_map. lia.
Qed.

Lemma retrieved_positions_distinct_witness :
  startup (L := uncased_libs) variants_dataset true = Ok variants_state
  /\ NoDup (chat_search
              (run [PostResetChat (MkBody None None)] variants_state)
              (encode "homework")).
Proof.
  split; [exact variants_startup|].
  exact (retrieved_positions_distinct variants_dataset true variants_state _ _
           variants_startup).
Defined.

(** ** From the objects of the API to the documents *)

(** X16. For a course whose assignments and quizzes were retrieved, the
    documents are the overview followed by exactly one document per
    assignment and one per quiz the API returned, in order, whether or not
    their submissions could be retrieved; each carries the name (or title)
    and the description of its object and the due date as normalized. *)
Theorem retrieved_items_each_get_a_document {L : Libs} (user : User)
    (course : Course) (assignments : list Assignment) (quizzes : list Quiz) :
  get_assignments course = Ok assignments ->
  get_quizzes course = Ok quizzes ->
  let name := default (JStr "Unknown Course") (c_name course) in
  record_documents (course_data user course)
  = (course_doc name (getattr_none (c_course_code course))
       (getattr_none (c_description course))
     :: map (fun a => assign_doc name (assignment_item (assignment_data a)))
          assignments
     ++ map (fun q => quiz_doc name (quiz_item (quiz_data q))) quizzes)%list
  /\ List.length (record_documents (course_data user course))
     = (1 + List.length assignments + List.length quizzes)%nat
  /\ (forall a,
        it_name (assignment_item (assignment_data a)) = a_name a
        /\ it_due (assignment_item (assignment_data a)) = due_of (a_due_at a)
        /\ it_desc (assignment_item (assignment_data a)) = a_description a)
  /\ (forall q,
        it_name (quiz_item (quiz_data q)) = q_title q
        /\ it_due (quiz_item (quiz_data q)) = due_of (q_due_at q)
        /\ it_desc (quiz_item (quiz_data q)) = q_description q).
Proof.
  intros Ha Hq name.
  assert (Hdocs : record_documents (course_data user course)
    = (course_doc name (getattr_none (c_course_code course))
         (getattr_none (c_description course))
       :: map (fun a => assign_doc name (assignment_item (assignment_data a)))
            assignments
       ++ map (fun q => quiz_doc name (quiz_item (quiz_data q))) quizzes)%list).
  { destruct (course_data_fields user course)
      as (d & -> & Hn & Hcode & Hdesc & Has & Hqs).
    unfold record_documents, course_documents, course_overview.
    rewrite Hn, Hcode, Hdesc, Has, Hqs. fold name.
    unfold assignments_data, quizzes_data. rewrite Ha, Hq. cbn [section bind].
    unfold section_items. cbn [py_iter]. now rewrite !map_map. }
  split; [exact Hdocs|]. split.
  - rewrite Hdocs. cbn [List.length]. rewrite length_app, !length_map. lia.
  - split; intros x; repeat split; reflexivity.
Qed.

Lemma retrieved_items_each_get_a_document_witness :
  List.length (record_documents (L := canvas_libs) (course_data ada cs101)) = 4%nat.
Proof.
  exact (proj1 (proj2 (retrieved_items_each_get_a_document (L := canvas_libs)
                         ada cs101 [hw1; hw2] [quiz1] eq_refl eq_refl))).
Defined.

Lemma sublist_List_filter {A} (P : A -> bool) (l : list A) :
  sublist (List.filter P l) l.
Proof.
  induction l as [|x l IH]; [constructor|].
  cbn [List.filter]. destruct (P x); now constructor.
Qed.

(** X17. Of the discussion topics of a course the fetcher records exactly
    those whose author is the current user, in their order; a topic without
    author, or whose author has no identifier, is left out. *)
Theorem only_authored_discussions {L : Libs} (user : User) (course : Course)
    (topics : list Discussion) :
  get_discussion_topics course = Ok topics ->
  exists d kept,
    course_data user course = JDict d
    /\ dict_lookup "discussions" d = Some (JList (map discussion_data kept))
    /\ sublist kept topics
    /\ (forall t, In t kept <->
                  In t topics /\ d_author_id t = Some (Some (u_id user))).
Proof.
  intros Ht. eexists. exists (List.filter (authored user) topics).
  split; [reflexivity|]. split.
  - simpl. unfold discussions_data. rewrite Ht. reflexivity.
  - split; [apply sublist_List_filter|].
    intros t. rewrite filter_In. unfold authored.
    destruct (d_author_id t) as [[a|]|]; split; intros [Hin H];
      split; try exact Hin; try discriminate.
    + apply Z.eqb_eq in H. now subst.
    + injection H as ->. apply Z.eqb_refl.
Qed.

Lemma only_authored_discussions_witness :
  let mine := MkDiscussion (JInt 1) (JStr "Intro") (JStr "Hello") JNull (Some (Some 7)) in
  let other := MkDiscussion (JInt 2) (JStr "Q") (JStr "?") JNull (Some (Some 8)) in
  let anonymous := MkDiscussion (JInt 3) (JStr "A") (JStr "!") JNull None in
  let course := MkCourse (JInt 5) None None None None None (Ok []) (Ok []) (Ok [])
                  (Ok [other; mine; anonymous]) (Ok []) (Ok []) (Ok JNull) in
  exists d kept,
    course_data ada course = JDict d
    /\ dict_lookup "discussions" d = Some (JList (map discussion_data kept))
    /\ In mine kept /\ ~ In other kept /\ ~ In anonymous kept.
Proof.
  intros mine other anonymous course.
  destruct (only_authored_discussions (L := canvas_libs) ada course
              [other; mine; anonymous] eq_refl) as (d & kept & Hd & Hl & _ & Hk).
  exists d, kept. split; [exact Hd|]. split; [exact Hl|]. split; [|split].
  - apply Hk. split; [right; left; reflexivity | reflexivity].
  - intros H. apply Hk in H. destruct H as [_ H]. discriminate H.
  - intros H. apply Hk in H. destruct H as [_ H]. discriminate H.
Defined.

(** ** Documents and metadata side by side *)

Section ParallelFacts.
Context {L : Libs}.

Lemma describes_assignment (course_name : json) (it : item) :
  describes (item_meta "assignment" course_name it) (assign_doc course_name it).
Proof.
  exists [("type", JStr "assignment"); ("course", course_name); ("title", it_name it)],
         course_name.
  split; [reflexivity|]. split; [reflexivity|]. right. left.
  exists (it_name it). split; [reflexivity|]. split; [reflexivity|].
  unfold starts_with, assign_doc. eexists. rewrite !append_assoc. reflexivity.
Qed.

Lemma describes_quiz (course_name : json) (it : item) :
  describes (item_meta "quiz" course_name it) (quiz_doc course_name it).
Proof.
  exists [("type", JStr "quiz"); ("course", course_name); ("title", it_name it)],
         course_name.
  split; [reflexivity|]. split; [reflexivity|]. right. right.
  exists (it_name it). split; [reflexivity|]. split; [reflexivity|].
  unfold starts_with, quiz_doc. eexists. rewrite !append_assoc. reflexivity.
Qed.

Lemma describes_course (course_name course_code description : json) :
  describes (JDict [("type", JStr "course"); ("course", course_name)])
    (course_doc course_name course_code description).
Proof.
  exists [("type", JStr "course"); ("course", course_name)], course_name.
  split; [reflexivity|]. split; [reflexivity|]. left.
  split; [reflexivity|]. split; [reflexivity|].
  unfold starts_with, course_doc.
  destruct (truthy description); eexists; rewrite !append_assoc; reflexivity.
Qed.

Lemma describes_record (c : json) :
  Forall2 describes (record_metadata c) (record_documents c).
Proof.
  destruct c as [| | | | | |d]; try constructor.
  - apply describes_course.
  - apply Forall2_app.
    + induction (section_items (dict_get "assignments" (JList []) d));
        constructor; [apply describes_assignment | assumption].
    + induction (section_items (dict_get "quizzes" (JList []) d));
        constructor; [apply describes_quiz | assumption].
Qed.

Lemma describes_records (cs : list json) :
  Forall2 describes (flat_map record_metadata cs) (flat_map record_documents cs).
Proof.
  induction cs as [|c cs IH]; [constructor|].
  cbn [flat_map]. apply Forall2_app; [apply describes_record | exact IH].
Qed.

End ParallelFacts.

(** X18. The metadata run parallel to the documents: for a dataset whose
    courses can be iterated over, the i-th metadata record has the type
    (course, assignment or quiz) whose heading opens the i-th document,
    names the same course, and carries the title the document shows (none
    for a course). *)
Theorem metadata_describe_documents {L : Libs} (data : pydict) (cs : list json)
    (docs : list string) (metas : list json) (d : json) :
  dict_get "courses" (JList []) data = JList cs ->
  Forall walkable cs ->
  load_and_process_data (JDict data) = Ok (docs, metas, d) ->
  Forall2 describes metas docs.
Proof.
  intros Hc Hw Hl. unfold load_and_process_data in Hl. cbn [py_get bind] in Hl.
  rewrite Hc in Hl. cbn [py_iter bind] in Hl.
  rewrite (process_courses_walkable cs ([], []) Hw) in Hl.
  cbn [bind fst snd app] in Hl. injection Hl as <- <- _.
  apply describes_records.
Qed.

Lemma metadata_describe_documents_witness :
  Forall2 (describes (L := canvas_libs)) cs101_metadata cs101_documents.
Proof.
  unfold cs101_metadata, cs101_documents.
  pose proof (fun data cs Hc Hw =>
                metadata_describe_documents (L := canvas_libs) data cs
                  cs101_documents cs101_metadata cs101_dataset Hc Hw) as H.
  unfold cs101_dataset, cs101_documents, cs101_metadata in H.
  lazymatch type of H with
  | forall data cs, _ -> _ -> load_and_process_data (JDict data) = Ok (_, _, JDict ?d0) -> _ =>
      lazymatch eval vm_compute in (dict_get "courses" (JList []) d0) with
      | JList ?cs0 => refine (H d0 cs0 eq_refl _ _)
      end
  end.
  - repeat constructor. eexists. eexists. eexists.
    split; [reflexivity|]. split; reflexivity.
  - vm_compute. reflexivity.
Defined.
